(** * GPIO controlled clock (drivers/clk/clk-gpio.c)

    A shallow embedding of the gpio clock driver: the three clock
    operations (enable, disable, is_enabled), the constructor
    [clk_register_gpio] with its clean-up chain, and the delayed
    device-tree provider [of_clk_gpio_delayed_register_get].

    The driver is stateful C: every function below is a state
    transformer over a record [kernel] that holds the state of the
    subsystems the driver talks to (gpiolib, the slab allocator, the
    common clock framework, devres, the kernel log) together with the
    ordered log of the calls made into them.  Callers of the provider
    that run concurrently are a transition system over one shared
    [_data] and one kernel, a move per statement group, scheduled in any
    order.

    The first part has the definitions, the second the properties. *)

From Stdlib Require Import ZArith Lia.
From stdpp Require Import base option list gmap strings.

Open Scope Z_scope.

(** ** Machine data *)

(** Modelled from the spec: linux/errno.h is not among the sources.  The
    error kinds of section 7 are the kernel's error numbers. *)
Definition ENOENT : Z := 2.
Definition ENOMEM : Z := 12.
Definition EBUSY : Z := 16.
Definition EEXIST : Z := 17.
Definition EINVAL : Z := 22.
Definition EPROBE_DEFER : Z := 517.
Definition MAX_ERRNO : Z := 4095.

(** The AM335x is a 32-bit ARM core: [long] and pointers are 32 bits wide.
    A pointer is its address, an [unsigned long] in [0, 2^32). *)
Definition BITS_PER_LONG : Z := 32.

Definition NULL : Z := 0.

(** Modelled from the spec: linux/err.h is not among the sources.  The
    spec's "opaque clock handle or an error" is the kernel's error
    pointer: [ERR_PTR] casts a (negative) [long] to a pointer, [PTR_ERR]
    casts back, and [IS_ERR] holds of the top [MAX_ERRNO] addresses. *)
Definition ERR_PTR (error : Z) : Z := error mod 2 ^ BITS_PER_LONG.

Definition PTR_ERR (ptr : Z) : Z :=
  if ptr <? 2 ^ (BITS_PER_LONG - 1) then ptr else ptr - 2 ^ BITS_PER_LONG.

Definition IS_ERR (ptr : Z) : bool :=
  (- MAX_ERRNO) mod 2 ^ BITS_PER_LONG <=? ptr.

(** C truth value of an [int], and the [!] operator. *)
Definition truthy (v : Z) : bool := negb (v =? 0).

Definition lnot (v : Z) : Z := if v =? 0 then 1 else 0.

(** ** Driver data *)

(** [&clk_gpio_ops] is the only operation table the driver hands out. *)
Inductive clk_ops_ref := clk_gpio_ops_ref.

(** Modelled from the spec: linux/clk-provider.h is not among the
    sources.  struct clk_init_data carries what section 6 lists for the
    registration call: name, operation set, flags, parent names, parent
    count.  A nullable [const char *] is an [option string]; the parent
    array has no or one entry. *)
Record clk_init_data := {
  init_name : option string;
  init_ops : option clk_ops_ref;
  init_parent_names : option string;
  init_num_parents : Z;
  init_flags : Z
}.

(** [struct clk_init_data init = { NULL };] *)
Definition clk_init_data_zero : clk_init_data :=
  {| init_name := None; init_ops := None; init_parent_names := None;
     init_num_parents := 0; init_flags := 0 |}.

(** Modelled from the spec: struct clk_gpio is declared in
    linux/clk-provider.h, not among the sources.  Section 3: the gate has
    a [line] and a polarity [active_low]; the fields are named as the
    driver uses them.  The embedded [struct clk_hw hw] is represented by
    what the driver stores in it, [hw.init].  The driver stores the
    address of the automatic [init] of [clk_register_gpio]; the field
    holds what that address points to while the function runs, which is
    what [clk_register] reads.  Once the function has returned the
    pointer dangles, and the gate operations never follow it: they
    read [gpio] and [active_low] only. *)
Record clk_gpio := {
  hw_init : clk_init_data;
  gpio : Z;
  active_low : bool
}.

Definition clk_gpio_zero : clk_gpio :=
  {| hw_init := clk_init_data_zero; gpio := 0; active_low := false |}.

(** ** The kernel around the driver *)

(** One GPIO line of gpiolib: who holds it and the level it drives. *)
Record gpio_line := {
  line_owner : option string;
  line_level : bool
}.

(** A clock of the common clock framework. *)
Record clk_core := {
  core_name : option string;
  core_ops : option clk_ops_ref;
  core_hw : Z;
  core_flags : Z;
  core_parent_names : option string;
  core_num_parents : Z
}.

(** A device-managed resource, released when the device is detached. *)
Inductive devres :=
| devres_gpio (dev : Z) (gpio : Z)
| devres_mem (dev : Z) (ptr : Z).

Inductive printk_arg :=
| arg_s (s : option string)
| arg_u (n : Z)
| arg_func (f : string).

(** The calls the driver makes, in the order it makes them. *)
Inductive call :=
| call_gpio_request_one (dev : Z) (gpio flags : Z) (label : string) (ret : Z)
| call_gpio_free (gpio : Z)
| call_gpio_set_value (gpio value : Z)
| call_gpio_get_value (gpio : Z) (ret : Z)
| call_kzalloc (dev : Z) (ret : Z)
| call_kfree (ptr : Z)
| call_clk_register (dev hw : Z) (init : clk_init_data) (ret : Z)
| call_pr_err (fmt : string) (args : list printk_arg)
| call_mutex_lock
| call_mutex_unlock
| call_of_get_named_gpio_flags (node : string) (prop : string) (index : Z) (ret : Z)
| call_of_clk_get_parent_name (node : string) (index : Z).

Record kernel := {
  gpios : gmap Z gpio_line;     (* gpiolib: the lines that exist *)
  kmem : list positive;         (* slab: addresses still free *)
  heap : gmap Z clk_gpio;       (* live clk_gpio objects *)
  clocks : gmap Z clk_core;     (* clock framework: handle -> clock *)
  devm : list devres;           (* devres lists *)
  calls : list call             (* call log, oldest first *)
}.

Definition set_gpios (f : gmap Z gpio_line → gmap Z gpio_line) (k : kernel) : kernel :=
  {| gpios := f (gpios k); kmem := kmem k; heap := heap k;
     clocks := clocks k; devm := devm k; calls := calls k |}.

Definition set_kmem (f : list positive → list positive) (k : kernel) : kernel :=
  {| gpios := gpios k; kmem := f (kmem k); heap := heap k;
     clocks := clocks k; devm := devm k; calls := calls k |}.

Definition set_heap (f : gmap Z clk_gpio → gmap Z clk_gpio) (k : kernel) : kernel :=
  {| gpios := gpios k; kmem := kmem k; heap := f (heap k);
     clocks := clocks k; devm := devm k; calls := calls k |}.

Definition set_clocks (f : gmap Z clk_core → gmap Z clk_core) (k : kernel) : kernel :=
  {| gpios := gpios k; kmem := kmem k; heap := heap k;
     clocks := f (clocks k); devm := devm k; calls := calls k |}.

Definition set_devm (f : list devres → list devres) (k : kernel) : kernel :=
  {| gpios := gpios k; kmem := kmem k; heap := heap k;
     clocks := clocks k; devm := f (devm k); calls := calls k |}.

Definition set_calls (f : list call → list call) (k : kernel) : kernel :=
  {| gpios := gpios k; kmem := kmem k; heap := heap k;
     clocks := clocks k; devm := devm k; calls := f (calls k) |}.

(** ** The state monad of kernel code *)

Definition kern (A : Type) : Type := kernel → A * kernel.

#[export] Instance kern_ret : MRet kern := λ A a k, (a, k).
#[export] Instance kern_bind : MBind kern :=
  λ A B f m k, let '(a, k') := m k in f a k'.

Definition modify (f : kernel → kernel) : kern unit := λ k, (tt, f k).
Definition gets {A} (f : kernel → A) : kern A := λ k, (f k, k).
Definition trace (c : call) : kern unit := modify (set_calls (λ l, l ++ [c])).

(** [if (c) stmt;] with no else branch. *)
Definition when (c : bool) (m : kern unit) : kern unit :=
  if c then m else mret tt.

(** ** gpiolib *)

(** Modelled from the spec: linux/gpio.h is not among the sources.  The
    flags of [gpio_request_one]: section 6 asks for the line "as an
    output" with an "initial level", which the flag word encodes in its
    direction bit and its [GPIOF_INIT_HIGH] bit. *)
Definition GPIOF_DIR_OUT : Z := Z.shiftl 0 0.
Definition GPIOF_DIR_IN : Z := Z.shiftl 1 0.
Definition GPIOF_INIT_LOW : Z := Z.shiftl 0 1.
Definition GPIOF_INIT_HIGH : Z := Z.shiftl 1 1.
Definition GPIOF_OUT_INIT_LOW : Z := Z.lor GPIOF_DIR_OUT GPIOF_INIT_LOW.
Definition GPIOF_OUT_INIT_HIGH : Z := Z.lor GPIOF_DIR_OUT GPIOF_INIT_HIGH.

(** The level [gpio_get_value] reports for a line: 1 for high, 0 for low,
    and 0 for a line number that no chip provides. *)
Definition gpio_level (k : kernel) (gpio : Z) : bool :=
  from_option line_level false (gpios k !! gpio).

Definition drive (level : bool) (l : gpio_line) : gpio_line :=
  {| line_owner := line_owner l; line_level := level |}.

(** Modelled from the spec: gpiolib is not among the sources.  Section 6,
    "set-level(line, level)": the line drives the level written to it; a
    line that does not exist is left alone. *)
Definition gpio_set_value (gpio value : Z) : kern unit :=
  trace (call_gpio_set_value gpio value);;
  modify (set_gpios (alter (drive (truthy value)) gpio)).

(** Modelled from the spec: gpiolib is not among the sources.  Section 6,
    "get-level(line) -> level": a read of the line, nothing is written. *)
Definition gpio_get_value (gpio : Z) : kern Z :=
  v ← gets (λ k, Z.b2z (gpio_level k gpio));
  trace (call_gpio_get_value gpio v);;
  mret v.

(** Modelled from the spec: gpiolib is not among the sources.  Section 6,
    "request-line-as-output(name, initial level) -> line handle or
    ResourceUnavailable", which "fails if the line is already owned
    elsewhere or does not exist".  The initial level is bit
    [GPIOF_INIT_HIGH] of the flags.  With a device the request is the
    managed one (below). *)
Definition gpiolib_request (gpio flags : Z) (label : string)
    (k : kernel) : Z * kernel :=
  match gpios k !! gpio with
  | None => (- EINVAL, k)
  | Some l =>
      match line_owner l with
      | Some _ => (- EBUSY, k)
      | None =>
          (0, set_gpios
                <[gpio := {| line_owner := Some label;
                             line_level := truthy (Z.land flags GPIOF_INIT_HIGH) |}]> k)
      end
  end.

(** Modelled from the spec: gpiolib is not among the sources.  The
    request of section 6, logged. *)
Definition gpio_request_one (gpio flags : Z) (label : string) : kern Z :=
  err ← gpiolib_request gpio flags label;
  trace (call_gpio_request_one NULL gpio flags label err);;
  mret err.

(** Modelled from the spec: gpiolib is not among the sources.  The
    request of section 6 on behalf of a device: a line obtained is
    entered in the device's devres list, to be released with the device. *)
Definition devm_gpio_request_one (dev gpio flags : Z) (label : string) : kern Z :=
  err ← gpiolib_request gpio flags label;
  trace (call_gpio_request_one dev gpio flags label err);;
  when (err =? 0) (modify (set_devm (λ l, l ++ [devres_gpio dev gpio])));;
  mret err.

Definition release (l : gpio_line) : gpio_line :=
  {| line_owner := None; line_level := line_level l |}.

(** Modelled from the spec: gpiolib is not among the sources.  Section 6,
    "release(line)": the line has no owner afterwards, whoever held it. *)
Definition gpio_free (gpio : Z) : kern unit :=
  trace (call_gpio_free gpio);;
  modify (set_gpios (alter release gpio)).

(** ** The clock operations *)

(** [to_clk_gpio(hw)] is the object that embeds [hw]; the operations
    receive that object. *)
Definition clk_gpio_enable (hw : clk_gpio) : kern Z :=
  let value := if active_low hw then 0 else 1 in
  gpio_set_value (gpio hw) value;;
  mret 0.

Definition clk_gpio_disable (hw : clk_gpio) : kern unit :=
  let value := if active_low hw then 1 else 0 in
  gpio_set_value (gpio hw) value.

Definition clk_gpio_is_enabled (hw : clk_gpio) : kern Z :=
  value ← gpio_get_value (gpio hw);
  mret (if active_low hw then lnot value else value).

(** Modelled from the spec: struct clk_ops is declared in
    linux/clk-provider.h, not among the sources.  The "operation set
    (enable/disable/is_enabled)" of section 4.1 step 4: the members the
    driver fills in. *)
Record clk_ops := {
  enable : clk_gpio → kern Z;
  disable : clk_gpio → kern unit;
  is_enabled : clk_gpio → kern Z
}.

Definition clk_gpio_ops : clk_ops :=
  {| enable := clk_gpio_enable;
     disable := clk_gpio_disable;
     is_enabled := clk_gpio_is_enabled |}.

Definition deref_ops (r : clk_ops_ref) : clk_ops :=
  match r with clk_gpio_ops_ref => clk_gpio_ops end.

(** The level that means "clock on" for a polarity. *)
Definition active_level (al : bool) : bool := negb al.

(** ** The slab allocator *)

(** Modelled from the spec: the allocator (linux/slab.h) is not among the
    sources.  Section 4.1 step 3, "Allocate the GpioClockGate record.
    Fails with OutOfMemory if allocation fails": a zeroed object at a
    free address, or [NULL] when no address is free. *)
Definition slab_alloc : kern Z := λ k,
  match kmem k with
  | [] => (NULL, k)
  | p :: rest =>
      (Z.pos p, set_heap <[Z.pos p := clk_gpio_zero]> (set_kmem (λ _, rest) k))
  end.

(** Modelled from the spec: the allocator is not among the sources.  The
    allocation of section 4.1 step 3, logged. *)
Definition kzalloc : kern Z :=
  p ← slab_alloc;
  trace (call_kzalloc NULL p);;
  mret p.

(** Modelled from the spec: the allocator is not among the sources.  The
    allocation of section 4.1 step 3 on behalf of a device: the object is
    entered in the device's devres list, to be freed with the device. *)
Definition devm_kzalloc (dev : Z) : kern Z :=
  p ← slab_alloc;
  trace (call_kzalloc dev p);;
  when (truthy p) (modify (set_devm (λ l, l ++ [devres_mem dev p])));;
  mret p.

(** Modelled from the spec: the allocator is not among the sources.
    "free the record": the object is gone and its address is free again;
    [kfree(NULL)] does nothing. *)
Definition kfree (ptr : Z) : kern unit :=
  trace (call_kfree ptr);;
  modify (λ k,
    match ptr, heap k !! ptr with
    | Z.pos p, Some _ => set_heap (delete ptr) (set_kmem (λ l, p :: l) k)
    | _, _ => k
    end).

(** [p->field = v] on the clk_gpio object at [p]. *)
Definition store (p : Z) (f : clk_gpio → clk_gpio) : kern unit :=
  modify (set_heap (alter f p)).

(** ** The common clock framework *)

(** Modelled from the spec: linux/clk-provider.h is not among the
    sources.  One of the "flags" of the registration call of section 6,
    [#define CLK_IS_BASIC BIT(5)]. *)
Definition CLK_IS_BASIC : Z := Z.shiftl 1 5.

Definition name_taken (name : option string) (cs : gmap Z clk_core) : bool :=
  bool_decide (Exists (λ c, core_name c.2 = name) (map_to_list cs)).

(** Modelled from the spec: the clock framework (drivers/clk/clk.c) is not
    among the sources.  Section 6, "a registration call taking (name,
    operation set, flags, parent names, parent count) and returning an
    opaque clock handle or an error"; section 4.1 step 4 names a duplicate
    name as one cause of failure, and the handle itself has to be
    allocated. *)
Definition clk_core_register (hw : Z) (init : clk_init_data) : kern Z := λ k,
  match kmem k with
  | [] => (ERR_PTR (- ENOMEM), k)
  | p :: rest =>
      if name_taken (init_name init) (clocks k) then (ERR_PTR (- EEXIST), k)
      else
        (Z.pos p,
         set_clocks
           <[Z.pos p := {| core_name := init_name init;
                           core_ops := init_ops init;
                           core_hw := hw;
                           core_flags := init_flags init;
                           core_parent_names := init_parent_names init;
                           core_num_parents := init_num_parents init |}]>
           (set_kmem (λ _, rest) k))
  end.

(** Modelled from the spec: the clock framework is not among the sources.
    The registration call of section 6: it reads [hw->init], registers,
    and is logged with what it read and what it returned. *)
Definition clk_register (dev hw : Z) : kern Z :=
  init ← gets (λ k, hw_init (default clk_gpio_zero (heap k !! hw)));
  clk ← clk_core_register hw init;
  trace (call_clk_register dev hw init clk);;
  mret clk.

(** Modelled from the spec: the clock framework is not among the sources.
    Section 6 exposes the three operations "as a capability set attached
    to each registered clock"; the framework's query on a handle is
    [clk->ops->is_enabled(clk->hw)].  [None] when the handle is not a
    registered clock with that operation. *)
Definition clk_is_enabled_of (clk : Z) (k : kernel) : option (Z * kernel) :=
  c ← clocks k !! clk;
  ops ← core_ops c;
  hw ← heap k !! core_hw c;
  Some (is_enabled (deref_ops ops) hw k).

(** ** The kernel log *)

(** Modelled from the spec: printk is not among the sources.  Section 7
    speaks of errors that are "logged": the message is appended to the
    log, format and arguments as given. *)
Definition pr_err (fmt : string) (args : list printk_arg) : kern unit :=
  trace (call_pr_err fmt args).

(** ** clk_register_gpio *)

(** The code from label [clk_register_gpio_err] to the end. *)
Definition clk_register_gpio_err (dev gpio clk : Z) : kern Z :=
  when (negb (truthy dev)) (gpio_free gpio);;
  mret clk.

Definition clk_register_gpio (dev : Z) (name : string)
    (parent_name : option string) (flags gpio : Z) (active_low : bool) : kern Z :=
  let gpio_flags :=
    if active_low then GPIOF_OUT_INIT_LOW else GPIOF_OUT_INIT_HIGH in
  err ← (if truthy dev then devm_gpio_request_one dev gpio gpio_flags name
         else gpio_request_one gpio gpio_flags name);
  if truthy err then
    pr_err "%s: %s: Error requesting clock control gpio %u\n"
           [arg_func "clk_register_gpio"; arg_s (Some name); arg_u gpio];;
    clk_register_gpio_err dev gpio (ERR_PTR err)
  else
    clk_gpio ← (if truthy dev then devm_kzalloc dev else kzalloc);
    if negb (truthy clk_gpio) then
      pr_err "%s: %s: could not allocate gpio clk\n"
             [arg_func "clk_register_gpio"; arg_s (Some name)];;
      clk_register_gpio_err dev gpio (ERR_PTR (- ENOMEM))
    else
      let init :=
        {| init_name := Some name;
           init_ops := Some clk_gpio_ops_ref;
           init_flags := Z.lor flags CLK_IS_BASIC;
           init_parent_names := parent_name;
           init_num_parents := if parent_name is Some _ then 1 else 0 |} in
      store clk_gpio (λ _, {| hw_init := init; gpio := gpio;
                              active_low := active_low |});;
      clk ← clk_register dev clk_gpio;
      if negb (IS_ERR clk) then mret clk
      else
        when (negb (truthy dev)) (kfree clk_gpio);;
        clk_register_gpio_err dev gpio clk.

(** ** The delayed device-tree provider *)

(** Modelled from the spec: linux/of_gpio.h is not among the sources.
    The "polarity" the gpio lookup of section 6 answers is bit
    [OF_GPIO_ACTIVE_LOW = 0x1] of the flags it writes. *)
Definition OF_GPIO_ACTIVE_LOW : Z := 1.

(** Modelled from the spec: struct device_node (linux/of.h) is not among
    the sources.  The "hardware-description node" of section 3, as far as
    the driver and the lookups read it: the node name, the cells
    [line; flags] of a GPIO property, and the names of the parent clocks. *)
Record device_node := {
  name : string;
  properties : gmap string (list Z);
  clock_parents : list string
}.

(** struct clk_gpio_delayed_register_data; the mutex is held or free. *)
Record clk_gpio_delayed_register_data := {
  node : device_node;
  lock : bool;
  clk : Z
}.

Definition set_lock (b : bool) (data : clk_gpio_delayed_register_data) :=
  {| node := node data; lock := b; clk := clk data |}.

Definition set_clk (c : Z) (data : clk_gpio_delayed_register_data) :=
  {| node := node data; lock := lock data; clk := c |}.

(** What [of_gpio_clk_setup] hands to [of_clk_add_provider]: a zeroed
    object with the node filled in and the mutex initialised. *)
Definition of_gpio_clk_setup_data (n : device_node) :=
  {| node := n; lock := false; clk := NULL |}.

(** Modelled from the spec: the device-tree lookups (drivers/of) are not
    among the sources.  Section 6, "lookup-gpio-property(node,
    property-name) -> (line, polarity) or TemporarilyUnavailable /
    InvalidDescription": a missing or malformed property is an error, a
    line whose controller has not registered it yet is [-EPROBE_DEFER]. *)
Definition dt_get_named_gpio_flags (np : device_node) (propname : string)
    (index : Z) (k : kernel) : Z * Z :=
  match properties np !! propname with
  | Some [line; flags] =>
      if negb (index =? 0) then (- ENOENT, 0)
      else if line <? 0 then (- EINVAL, 0)
      else if bool_decide (is_Some (gpios k !! line)) then (line, flags)
      else (- EPROBE_DEFER, 0)
  | Some _ => (- EINVAL, 0)
  | None => (- ENOENT, 0)
  end.

(** Modelled from the spec: section 6, "lookup-parent-name(node, index)
    -> optional name". *)
Definition dt_clk_get_parent_name (np : device_node) (index : Z)
    (k : kernel) : option string :=
  if index <? 0 then None else clock_parents np !! Z.to_nat index.

Section Provider.

(** The two device-tree lookups the provider calls.  The first returns
    the line number or a negative errno, and the flags it writes
    through its last argument. *)
Variable of_get_named_gpio_flags :
  device_node → string → Z → kernel → Z * Z.
Variable of_clk_get_parent_name :
  device_node → Z → kernel → option string.

(** Modelled from the spec: the mutex (linux/mutex.h) is not among the
    sources; the [guard] of section 3.  Releasing it is logged; whether
    it is held is the [lock] field of [data], which the callers of
    [mutex_unlock] below clear. *)
Definition mutex_unlock : kern unit := trace call_mutex_unlock.

(** The body of [of_clk_gpio_delayed_register_get] from the statement
    after [mutex_lock] on, run with the mutex held.  The result is the
    returned pointer and the object behind [_data] as the call leaves
    it. *)
Definition delayed_register_locked (data : clk_gpio_delayed_register_data)
    : kern (Z * clk_gpio_delayed_register_data) :=
  let clk_name := name (node data) in
  if truthy (clk data) then
    mutex_unlock;;
    mret (clk data, set_lock false data)
  else
    '(gpio, gpio_flags) ←
      gets (of_get_named_gpio_flags (node data) "enable-gpios" 0);
    trace (call_of_get_named_gpio_flags clk_name "enable-gpios" 0 gpio);;
    if gpio <? 0 then
      mutex_unlock;;
      when (negb (gpio =? - EPROBE_DEFER))
        (pr_err "%s: %s: Can't get 'enable-gpios' DT property\n"
                [arg_func "of_clk_gpio_delayed_register_get";
                 arg_s (Some clk_name)]);;
      mret (ERR_PTR gpio, set_lock false data)
    else
      let active_low := truthy (Z.land gpio_flags OF_GPIO_ACTIVE_LOW) in
      parent_name ← gets (of_clk_get_parent_name (node data) 0);
      trace (call_of_clk_get_parent_name clk_name 0);;
      clk ← clk_register_gpio NULL clk_name parent_name 0 gpio active_low;
      if IS_ERR clk then
        mutex_unlock;;
        mret (clk, set_lock false data)
      else
        let data := set_clk clk data in
        mutex_unlock;;
        mret (clk, set_lock false data).

(** [mutex_lock(&data->lock)] in a call that runs alone: it takes a free
    mutex, and on a held one the caller sleeps with nobody left to wake
    it, so the call has no result. *)
Definition of_clk_gpio_delayed_register_get
    (clkspec : list Z) (data : clk_gpio_delayed_register_data)
    (k : kernel) : option (Z * clk_gpio_delayed_register_data * kernel) :=
  if lock data then None
  else
    Some ((trace call_mutex_lock;;
           delayed_register_locked (set_lock true data)) k).

End Provider.

(** ** Reading the call log *)

(** The calls made between state [k] and a later state [k']. *)
Definition calls_since (k k' : kernel) : list call :=
  drop (length (calls k)) (calls k').

Definition is_release (c : call) : bool :=
  match c with
  | call_gpio_free _ | call_kfree _ => true
  | _ => false
  end.

Definition is_alloc (c : call) : bool :=
  match c with
  | call_kzalloc _ _ => true
  | _ => false
  end.

(** The releases among a list of calls, in order. *)
Definition released (log : list call) : list call := List.filter is_release log.

Definition allocations (log : list call) : list call := List.filter is_alloc log.

(** Everything but the call log is the same in [k] and [k']. *)
Definition unchanged (k k' : kernel) : Prop :=
  gpios k' = gpios k ∧ kmem k' = kmem k ∧ heap k' = heap k
  ∧ clocks k' = clocks k ∧ devm k' = devm k.

(** ** Names for the pieces of clk_register_gpio *)

(** [if (dev) err = devm_gpio_request_one(...); else err = gpio_request_one(...);] *)
Definition request (dev gpio flags : Z) (label : string) : kern Z :=
  if truthy dev then devm_gpio_request_one dev gpio flags label
  else gpio_request_one gpio flags label.

(** [if (dev) clk_gpio = devm_kzalloc(...); else clk_gpio = kzalloc(...);] *)
Definition alloc (dev : Z) : kern Z :=
  if truthy dev then devm_kzalloc dev else kzalloc.

Definition gpio_init_flags (al : bool) : Z :=
  if al then GPIOF_OUT_INIT_LOW else GPIOF_OUT_INIT_HIGH.

Definition gpio_init_data (nm : string) (parent : option string) (flags : Z) :=
  {| init_name := Some nm;
     init_ops := Some clk_gpio_ops_ref;
     init_flags := Z.lor flags CLK_IS_BASIC;
     init_parent_names := parent;
     init_num_parents := if parent is Some _ then 1 else 0 |}.

Definition msg_request (nm : string) (g : Z) : call :=
  call_pr_err "%s: %s: Error requesting clock control gpio %u\n"
    [arg_func "clk_register_gpio"; arg_s (Some nm); arg_u g].

Definition msg_alloc (nm : string) : call :=
  call_pr_err "%s: %s: could not allocate gpio clk\n"
    [arg_func "clk_register_gpio"; arg_s (Some nm)].

Definition msg_lookup (nm : string) : call :=
  call_pr_err "%s: %s: Can't get 'enable-gpios' DT property\n"
    [arg_func "of_clk_gpio_delayed_register_get"; arg_s (Some nm)].

(** The four ways through [clk_register_gpio], each with the calls it
    makes: the request fails, the allocation fails, the registration
    fails, or the clock is registered. *)
Inductive register_gpio_path (dev : Z) (nm : string) (parent : option string)
    (flags g : Z) (al : bool) (k : kernel) (c : Z) (k' : kernel) : Prop :=
| path_request_failed err :
    err ≠ 0 → c = ERR_PTR err → IS_ERR c = true →
    calls k' = calls k ++
      [call_gpio_request_one dev g (gpio_init_flags al) nm err; msg_request nm g]
      ++ (if truthy dev then [] else [call_gpio_free g]) →
    register_gpio_path dev nm parent flags g al k c k'
| path_alloc_failed :
    c = ERR_PTR (- ENOMEM) → IS_ERR c = true →
    calls k' = calls k ++
      [call_gpio_request_one dev g (gpio_init_flags al) nm 0;
       call_kzalloc dev NULL; msg_alloc nm]
      ++ (if truthy dev then [] else [call_gpio_free g]) →
    register_gpio_path dev nm parent flags g al k c k'
| path_register_failed p :
    p ≠ NULL → IS_ERR c = true →
    calls k' = calls k ++
      [call_gpio_request_one dev g (gpio_init_flags al) nm 0;
       call_kzalloc dev p;
       call_clk_register dev p (gpio_init_data nm parent flags) c]
      ++ (if truthy dev then [] else [call_kfree p; call_gpio_free g]) →
    register_gpio_path dev nm parent flags g al k c k'
| path_registered p :
    p ≠ NULL → c ≠ NULL → IS_ERR c = false →
    calls k' = calls k ++
      [call_gpio_request_one dev g (gpio_init_flags al) nm 0;
       call_kzalloc dev p;
       call_clk_register dev p (gpio_init_data nm parent flags) c] →
    is_Some (gpios k' !! g) →
    gpio_level k' g = negb al →
    heap k' !! p = Some {| hw_init := gpio_init_data nm parent flags;
                           gpio := g; active_low := al |} →
    clocks k' !! c =
      Some {| core_name := Some nm; core_ops := Some clk_gpio_ops_ref;
              core_hw := p; core_flags := Z.lor flags CLK_IS_BASIC;
              core_parent_names := parent;
              core_num_parents := if parent is Some _ then 1 else 0 |} →
    register_gpio_path dev nm parent flags g al k c k'.

(** ** A board to run the driver on *)

Module Board.

(** Line 42 exists, is free and floats high; line 7 is held by another
    driver; two addresses are free. *)
Definition lines : gmap Z gpio_line :=
  {[ 42 := {| line_owner := None; line_level := true |};
     7 := {| line_owner := Some "backlight"; line_level := true |} ]}.

Definition boot : kernel :=
  {| gpios := lines; kmem := [16; 32]%positive; heap := ∅; clocks := ∅;
     devm := []; calls := [] |}.

(** The same board with a clock called "osc" registered already. *)
Definition osc_core : clk_core :=
  {| core_name := Some "osc"; core_ops := None; core_hw := NULL;
     core_flags := 0; core_parent_names := None; core_num_parents := 0 |}.

Definition boot_osc_taken : kernel := set_clocks <[8 := osc_core]> boot.

(** The same board with no memory left. *)
Definition boot_no_memory : kernel := set_kmem (λ _, []) boot.

(** An "osc" node wired to line 42, active low, no parent clock. *)
Definition osc_node : device_node :=
  {| name := "osc"; properties := {[ "enable-gpios" := [42; 1] ]};
     clock_parents := [] |}.

(** An "lcd" node wired to line 99, which no controller provides yet. *)
Definition lcd_node : device_node :=
  {| name := "lcd"; properties := {[ "enable-gpios" := [99; 0] ]};
     clock_parents := ["osc"] |}.

(** A node with no "enable-gpios" property. *)
Definition bad_node : device_node :=
  {| name := "bad"; properties := ∅; clock_parents := [] |}.

Definition get := of_clk_gpio_delayed_register_get
                    dt_get_named_gpio_flags dt_clk_get_parent_name [].

End Board.

(** ** Sequences of calls to the provider *)

(** [k] with the calls [cs] appended to its log. *)
Definition logged (cs : list call) (k : kernel) : kernel :=
  set_calls (λ l, l ++ cs) k.

(** [n] calls of a provider callback [get], one after the other, on the
    same [_data]; the results in order.  [None] if one of them blocks. *)
Fixpoint get_n
    (get : clk_gpio_delayed_register_data → kernel →
           option (Z * clk_gpio_delayed_register_data * kernel))
    (n : nat) (data : clk_gpio_delayed_register_data) (k : kernel)
    : option (list Z * clk_gpio_delayed_register_data * kernel) :=
  match n with
  | O => Some ([], data, k)
  | S n =>
      '(r, data, k) ← get data k;
      '(rs, data, k) ← get_n get n data k;
      Some (r :: rs, data, k)
  end.

Section ProviderLog.
Variable of_get_named_gpio_flags :
  device_node → string → Z → kernel → Z * Z.
Variable of_clk_get_parent_name :
  device_node → Z → kernel → option string.

(** What the gpio lookup of a call answers: it runs right after
    [mutex_lock]. *)
Definition lookup_of (data : clk_gpio_delayed_register_data) (k : kernel)
    : Z * Z :=
  of_get_named_gpio_flags (node data) "enable-gpios" 0
    (logged [call_mutex_lock] k).

Definition lookup_call (data : clk_gpio_delayed_register_data) (k : kernel)
    : call :=
  call_of_get_named_gpio_flags (name (node data)) "enable-gpios" 0
    (lookup_of data k).1.

(** What the parent lookup of a call answers. *)
Definition parent_of (data : clk_gpio_delayed_register_data) (k : kernel)
    : option string :=
  of_clk_get_parent_name (node data) 0
    (logged [call_mutex_lock; lookup_call data k] k).

Definition parent_call (data : clk_gpio_delayed_register_data) : call :=
  call_of_clk_get_parent_name (name (node data)) 0.

(** The call of [clk_register_gpio] a provider call makes once both
    lookups are through. *)
Definition construct_of (data : clk_gpio_delayed_register_data) (k : kernel)
    : Z * kernel :=
  clk_register_gpio NULL (name (node data)) (parent_of data k) 0
    (lookup_of data k).1
    (truthy (Z.land (lookup_of data k).2 OF_GPIO_ACTIVE_LOW))
    (logged [call_mutex_lock; lookup_call data k; parent_call data] k).

End ProviderLog.

(** ** Concurrent callers of the provider *)

(** Where a caller of [of_clk_gpio_delayed_register_get] stands.  The
    caller holds the mutex from [at_check] on, until it moves to
    [at_return_cached], [at_lookup_failed] or [returned]. *)
Inductive pc :=
| at_lock                               (* line 163: before mutex_lock *)
| at_check                              (* line 165: if (data->clk) *)
| at_return_cached                      (* line 167: return data->clk *)
| at_lookup                             (* line 170: the gpio lookup *)
| at_lookup_failed (gpio : Z)           (* line 175: after the unlock *)
| at_register (gpio gpio_flags : Z)     (* lines 181-186 *)
| at_registered (clk : Z)               (* line 187: if (IS_ERR(clk)) *)
| returned (ret : Z).

Definition in_cs (t : pc) : bool :=
  match t with
  | at_check | at_lookup | at_register _ _ | at_registered _ => true
  | _ => false
  end.

(** All callers share one [_data] and one kernel. *)
Record system := {
  shared : clk_gpio_delayed_register_data;
  world : kernel;
  threads : list pc
}.

Section Callers.
Variable of_get_named_gpio_flags :
  device_node → string → Z → kernel → Z * Z.
Variable of_clk_get_parent_name :
  device_node → Z → kernel → option string.

(** One move of a caller: the statements of
    [of_clk_gpio_delayed_register_get] from its position to the next
    one.  [None]: the caller cannot move, because it waits for the mutex
    or has returned. *)
Definition step (t : pc) (data : clk_gpio_delayed_register_data)
    (k : kernel) : option (pc * clk_gpio_delayed_register_data * kernel) :=
  let clk_name := name (node data) in
  match t with
  | at_lock =>
      if lock data then None
      else Some (at_check, set_lock true data, logged [call_mutex_lock] k)
  | at_check =>
      if truthy (clk data) then
        Some (at_return_cached, set_lock false data,
              logged [call_mutex_unlock] k)
      else Some (at_lookup, data, k)
  | at_return_cached => Some (returned (clk data), data, k)
  | at_lookup =>
      let '(gpio, gpio_flags) :=
        of_get_named_gpio_flags (node data) "enable-gpios" 0 k in
      let k :=
        logged [call_of_get_named_gpio_flags clk_name "enable-gpios" 0 gpio] k in
      if gpio <? 0 then
        Some (at_lookup_failed gpio, set_lock false data,
              logged [call_mutex_unlock] k)
      else Some (at_register gpio gpio_flags, data, k)
  | at_lookup_failed gpio =>
      Some (returned (ERR_PTR gpio), data,
            if negb (gpio =? - EPROBE_DEFER) then logged [msg_lookup clk_name] k
            else k)
  | at_register gpio gpio_flags =>
      let active_low := truthy (Z.land gpio_flags OF_GPIO_ACTIVE_LOW) in
      let parent_name := of_clk_get_parent_name (node data) 0 k in
      let k := logged [call_of_clk_get_parent_name clk_name 0] k in
      let '(clk, k) :=
        clk_register_gpio NULL clk_name parent_name 0 gpio active_low k in
      Some (at_registered clk, data, k)
  | at_registered clk =>
      if IS_ERR clk then
        Some (returned clk, set_lock false data, logged [call_mutex_unlock] k)
      else
        Some (returned clk, set_lock false (set_clk clk data),
              logged [call_mutex_unlock] k)
  | returned _ => None
  end.

(** A caller running alone for at most [fuel] moves. *)
Fixpoint solo (fuel : nat) (t : pc) (data : clk_gpio_delayed_register_data)
    (k : kernel) : pc * clk_gpio_delayed_register_data * kernel :=
  match fuel with
  | O => (t, data, k)
  | S fuel =>
      match step t data k with
      | Some (t, data, k) => solo fuel t data k
      | None => (t, data, k)
      end
  end.

(** Caller [i] moves; the system stays as it is when it cannot. *)
Definition sys_step (i : nat) (s : system) : system :=
  match threads s !! i with
  | Some t =>
      match step t (shared s) (world s) with
      | Some (t, data, k) =>
          {| shared := data; world := k; threads := <[i := t]> (threads s) |}
      | None => s
      end
  | None => s
  end.

(** The callers move in the order of a schedule. *)
Fixpoint run (schedule : list nat) (s : system) : system :=
  match schedule with
  | [] => s
  | i :: schedule => run schedule (sys_step i s)
  end.

End Callers.

(** [n] callers about to call the provider of a fresh node. *)
Definition callers (n : nat) (np : device_node) (k : kernel) : system :=
  {| shared := of_gpio_clk_setup_data np; world := k;
     threads := replicate n at_lock |}.

(** A registration that returned a clock. *)
Definition is_registered (c : call) : bool :=
  match c with
  | call_clk_register _ _ _ ret => negb (IS_ERR ret)
  | _ => false
  end.

(** A line request or a registration. *)
Definition is_construct (c : call) : bool :=
  match c with
  | call_gpio_request_one _ _ _ _ _ | call_clk_register _ _ _ _ => true
  | _ => false
  end.

Definition is_request (c : call) : bool :=
  match c with
  | call_gpio_request_one _ _ _ _ _ => true
  | _ => false
  end.

Definition is_register (c : call) : bool :=
  match c with
  | call_clk_register _ _ _ _ => true
  | _ => false
  end.

(** No call of a log registered a clock; no call of a log requested a
    line or registered anything. *)
Abbreviation notreg := (forallb (λ c, negb (is_registered c))).
Abbreviation noconstruct := (forallb (λ c, negb (is_construct c))).

(** In a log, nothing is requested or registered after a registration
    that returned a clock. *)
Fixpoint registered_once (log : list call) : bool :=
  match log with
  | [] => true
  | c :: log =>
      if is_registered c then noconstruct log
      else registered_once log
  end.

(** What holds of [data] while a caller stands at [t]. *)
Definition thread_ok (data : clk_gpio_delayed_register_data) (t : pc) : Prop :=
  match t with
  | at_lock | at_check => True
  | at_return_cached => clk data ≠ NULL
  | at_lookup | at_register _ _ => clk data = NULL
  | at_lookup_failed gpio => - MAX_ERRNO ≤ gpio < 0
  | at_registered c => clk data = NULL ∧ (IS_ERR c = false → c ≠ NULL)
  | returned r => IS_ERR r = false → r = clk data ∧ r ≠ NULL
  end.

(** The invariant of a system of callers whose calls so far are [log]:
    a caller inside the critical section holds the mutex, two callers
    are never inside together, every caller agrees with [data], and the
    log has a successful registration only once [data->clk] is set or
    about to be. *)
Record invariant (log : list call) (s : system) : Prop := {
  inv_lock : ∀ i t, threads s !! i = Some t → in_cs t = true →
             lock (shared s) = true;
  inv_mutex : ∀ i j ti tj,
      threads s !! i = Some ti → threads s !! j = Some tj →
      in_cs ti = true → in_cs tj = true → i = j;
  inv_thread : ∀ i t, threads s !! i = Some t → thread_ok (shared s) t;
  inv_once : registered_once log = true;
  inv_none :
    clk (shared s) = NULL →
    (∀ i c, threads s !! i = Some (at_registered c) → IS_ERR c = true) →
    notreg log = true
}.

(** ** Sequences of enable and disable *)

(** The two operations that write the line, as the framework calls them
    through [clk_gpio_ops]. *)
Inductive gate_call := do_enable | do_disable.

Definition gate_do (hw : clk_gpio) (c : gate_call) : kern unit :=
  match c with
  | do_enable => enable clk_gpio_ops hw;; mret tt
  | do_disable => disable clk_gpio_ops hw
  end.

Fixpoint gate_run (hw : clk_gpio) (cs : list gate_call) : kern unit :=
  match cs with
  | [] => mret tt
  | c :: cs => gate_do hw c;; gate_run hw cs
  end.

(** What a gate operation may change between [k] and [k']: the level of
    its own line, and the call log. *)
Definition gate_frame (hw : clk_gpio) (k k' : kernel) : Prop :=
  (∀ g, g ≠ gpio hw → gpios k' !! g = gpios k !! g)
  ∧ line_owner <$> gpios k' !! gpio hw = line_owner <$> gpios k !! gpio hw
  ∧ heap k' = heap k ∧ clocks k' = clocks k ∧ kmem k' = kmem k
  ∧ devm k' = devm k.

(** A mutex operation. *)
Definition is_mutex (c : call) : bool :=
  match c with
  | call_mutex_lock | call_mutex_unlock => true
  | _ => false
  end.

(** A node wired to line 7, the line the backlight driver holds. *)
Definition backlight_clock_node : device_node :=
  {| name := "blclk"; properties := {[ "enable-gpios" := [7; 0] ]};
     clock_parents := [] |}.

(** ** Progress of concurrent callers *)

(** How many moves a caller has left at most. *)
Definition moves_left (t : pc) : nat :=
  match t with
  | at_lock => 5
  | at_check => 4
  | at_lookup => 3
  | at_register _ _ => 2
  | at_return_cached | at_lookup_failed _ | at_registered _ => 1
  | returned _ => 0
  end.

Definition total_moves (ts : list pc) : nat := sum_list (moves_left <$> ts).

Definition has_returned (t : pc) : bool :=
  match t with returned _ => true | _ => false end.

(** A held mutex has a holder: some caller is inside. *)
Definition holder_exists (s : system) : Prop :=
  lock (shared s) = true →
  ∃ i t, threads s !! i = Some t ∧ in_cs t = true.

(** Where a caller can stand that called after the clock was resolved
    to [c]: it takes the mutex, finds [data->clk] set and returns it. *)
Definition fast_path (c : Z) (t : pc) : Prop :=
  match t with
  | at_lock | at_check | at_return_cached => True
  | returned r => r = c
  | _ => False
  end.

(** ** Accounting for line requests *)

(** A construction step that failed: the line request answered an
    error, the allocation of the record answered NULL, or the
    registration answered an error pointer. *)
Definition is_failed (c : call) : bool :=
  match c with
  | call_gpio_request_one _ _ _ _ ret => truthy ret
  | call_kzalloc _ ret => negb (truthy ret)
  | call_clk_register _ _ _ ret => IS_ERR ret
  | _ => false
  end.

(** How many calls of a log are of one kind. *)
Definition count (f : call → bool) (log : list call) : nat :=
  length (List.filter f log).

(** 1 while a caller has not been through [clk_register_gpio] yet. *)
Definition pending (t : pc) : nat :=
  match t with
  | at_lock | at_check | at_lookup | at_register _ _ => 1
  | _ => 0
  end.

Definition total_pending (ts : list pc) : nat := sum_list (pending <$> ts).

(** The books of a system of callers whose calls so far are [log]:
    every line request ended in the registration of a clock or in a
    failed step; nothing is registered without a request; a caller
    requests at most once; and a clock that is cached, or about to be,
    was registered. *)
Record accounting (log : list call) (s : system) : Prop := {
  acc_requests :
    count is_request log
    = (count is_registered log + count is_failed log)%nat;
  acc_registers : (count is_register log ≤ count is_request log)%nat;
  acc_callers :
    (count is_request log + total_pending (threads s) ≤ length (threads s))%nat;
  acc_cached : clk (shared s) ≠ NULL → (1 ≤ count is_registered log)%nat;
  acc_pending : ∀ i c,
    threads s !! i = Some (at_registered c) → IS_ERR c = false →
    (1 ≤ count is_registered log)%nat
}.

(** * Properties *)

Ltac kern_unfold :=
  unfold mbind, mret, kern_bind, kern_ret, when, trace, modify, gets in *.

Section Gate.
Implicit Types (hw : clk_gpio) (k : kernel).

Lemma gpio_level_driven k g v :
  is_Some (gpios k !! g) →
  gpio_level (set_gpios (alter (drive v) g) k) g = v.
Proof.
  intros [l Hl]. unfold gpio_level. simpl.
  rewrite lookup_alter_eq, Hl. reflexivity.
Qed.

Lemma drive_twice (m : gmap Z gpio_line) g v :
  alter (drive v) g (alter (drive v) g m) = alter (drive v) g m.
Proof.
  rewrite alter_alter_eq. apply alter_ext. intros [o l] _. reflexivity.
Qed.

Lemma clk_gpio_enable_eq hw k :
  clk_gpio_enable hw k =
    (0, set_gpios (alter (drive (active_level (active_low hw))) (gpio hw))
          (set_calls (λ l, l ++ [call_gpio_set_value (gpio hw)
                                   (if active_low hw then 0 else 1)]) k)).
Proof.
  unfold clk_gpio_enable, gpio_set_value, active_level. kern_unfold.
  destruct (active_low hw); reflexivity.
Qed.

Lemma clk_gpio_disable_eq hw k :
  clk_gpio_disable hw k =
    (tt, set_gpios (alter (drive (negb (active_level (active_low hw)))) (gpio hw))
           (set_calls (λ l, l ++ [call_gpio_set_value (gpio hw)
                                    (if active_low hw then 1 else 0)]) k)).
Proof.
  unfold clk_gpio_disable, gpio_set_value, active_level. kern_unfold.
  destruct (active_low hw); reflexivity.
Qed.

Lemma clk_gpio_is_enabled_eq hw k :
  clk_gpio_is_enabled hw k =
    (Z.b2z (xorb (gpio_level k (gpio hw)) (active_low hw)),
     set_calls (λ l, l ++ [call_gpio_get_value (gpio hw)
                             (Z.b2z (gpio_level k (gpio hw)))]) k).
Proof.
  unfold clk_gpio_is_enabled, gpio_get_value. kern_unfold. simpl.
  destruct (gpio_level k (gpio hw)), (active_low hw); reflexivity.
Qed.

End Gate.

(** C8. [clk_gpio_is_enabled] makes one call, a read of the line; its
    result is the level of the line exclusive-or [active_low], hence true
    exactly when the line is at the active level; the lines, the objects,
    the clocks and the allocator are as before. *)
Theorem clk_gpio_is_enabled_pure (hw : clk_gpio) (k : kernel) :
  let level := gpio_level k (gpio hw) in
  let r := clk_gpio_is_enabled hw k in
  r.1 = Z.b2z (xorb level (active_low hw))
  ∧ (truthy r.1 = true ↔ level = active_level (active_low hw))
  ∧ r.2 = set_calls (λ l, l ++ [call_gpio_get_value (gpio hw) (Z.b2z level)]) k
  ∧ gpios r.2 = gpios k ∧ heap r.2 = heap k ∧ clocks r.2 = clocks k.
Proof.
  intros level r. subst r level. rewrite clk_gpio_is_enabled_eq. simpl.
  unfold active_level.
  destruct (gpio_level k (gpio hw)), (active_low hw); vm_compute;
    repeat split; intros; congruence.
Qed.

(** C4. On a gate whose line exists, [clk_gpio_enable] writes the active
    level (0 when [active_low], 1 otherwise) and [clk_gpio_is_enabled]
    then returns true; [clk_gpio_disable] writes the inverse and
    [clk_gpio_is_enabled] then returns false. *)
Theorem enable_disable_round_trip (hw : clk_gpio) (k : kernel) :
  is_Some (gpios k !! gpio hw) →
  let on := (clk_gpio_enable hw k).2 in
  let off := (clk_gpio_disable hw k).2 in
  calls on = calls k ++ [call_gpio_set_value (gpio hw) (if active_low hw then 0 else 1)]
  ∧ gpio_level on (gpio hw) = negb (active_low hw)
  ∧ truthy (clk_gpio_is_enabled hw on).1 = true
  ∧ calls off = calls k ++ [call_gpio_set_value (gpio hw) (if active_low hw then 1 else 0)]
  ∧ gpio_level off (gpio hw) = active_low hw
  ∧ truthy (clk_gpio_is_enabled hw off).1 = false.
Proof.
  intros Hline on off. subst on off.
  rewrite clk_gpio_enable_eq, clk_gpio_disable_eq. cbn [snd].
  rewrite !clk_gpio_is_enabled_eq. cbn [fst].
  rewrite !gpio_level_driven by exact Hline.
  unfold active_level. destruct (active_low hw); repeat split; reflexivity.
Qed.

Lemma enable_disable_round_trip_witness :
  let k := (clk_register_gpio NULL "osc" None 0 42 true Board.boot).2 in
  let hw := {| hw_init := gpio_init_data "osc" None 0; gpio := 42;
               active_low := true |} in
  heap k !! 16 = Some hw
  ∧ is_Some (gpios k !! 42)
  ∧ gpio_level (clk_gpio_enable hw k).2 42 = false
  ∧ truthy (clk_gpio_is_enabled hw (clk_gpio_enable hw k).2).1 = true
  ∧ gpio_level (clk_gpio_disable hw k).2 42 = true
  ∧ truthy (clk_gpio_is_enabled hw (clk_gpio_disable hw k).2).1 = false.
Proof.
  intros k hw.
  assert (Hline : is_Some (gpios k !! gpio hw)) by (by eexists).
  split; [reflexivity|]. split; [exact Hline|].
  destruct (enable_disable_round_trip hw k Hline)
    as (_ & Hon & Hen & _ & Hoff & Hdis).
  repeat split; assumption.
Defined.

(** C7. From any state and for either polarity, a second [clk_gpio_enable]
    leaves every line as the first one left it, and [clk_gpio_is_enabled]
    answers the same after one call and after two; likewise for
    [clk_gpio_disable]. *)
Theorem enable_disable_idempotent (hw : clk_gpio) (k : kernel) :
  let on1 := (clk_gpio_enable hw k).2 in
  let on2 := (clk_gpio_enable hw on1).2 in
  let off1 := (clk_gpio_disable hw k).2 in
  let off2 := (clk_gpio_disable hw off1).2 in
  gpios on2 = gpios on1
  ∧ (clk_gpio_is_enabled hw on2).1 = (clk_gpio_is_enabled hw on1).1
  ∧ gpios off2 = gpios off1
  ∧ (clk_gpio_is_enabled hw off2).1 = (clk_gpio_is_enabled hw off1).1.
Proof.
  intros on1 on2 off1 off2. subst on1 on2 off1 off2.
  rewrite !clk_gpio_enable_eq, !clk_gpio_disable_eq. cbn [snd].
  rewrite !clk_gpio_is_enabled_eq. cbn [fst].
  unfold gpio_level. simpl. rewrite !drive_twice. repeat split; reflexivity.
Qed.

Section Collaborators.
Implicit Types (k : kernel) (dev g fl p : Z) (nm : string).

Lemma truthy_false v : truthy v = false ↔ v = 0.
Proof. unfold truthy. destruct (Z.eqb_spec v 0); simpl; split; congruence. Qed.

Lemma truthy_true v : truthy v = true ↔ v ≠ 0.
Proof. unfold truthy. destruct (Z.eqb_spec v 0); simpl; split; congruence. Qed.

Lemma gpiolib_request_spec g fl nm k err k1 :
  gpiolib_request g fl nm k = (err, k1) →
  calls k1 = calls k ∧ heap k1 = heap k ∧ kmem k1 = kmem k
  ∧ clocks k1 = clocks k ∧ devm k1 = devm k
  ∧ (err = 0 ∧ is_Some (gpios k1 !! g)
     ∧ gpio_level k1 g = truthy (Z.land fl GPIOF_INIT_HIGH)
     ∨ (err = - EINVAL ∨ err = - EBUSY) ∧ k1 = k).
Proof.
  unfold gpiolib_request, gpio_level.
  destruct (gpios k !! g) as [l|]; [destruct (line_owner l)|];
    intros [= <- <-]; simpl; rewrite ?lookup_insert_eq; simpl; eauto 10.
Qed.

Lemma request_spec dev g fl nm k err k1 :
  request dev g fl nm k = (err, k1) →
  calls k1 = calls k ++ [call_gpio_request_one dev g fl nm err]
  ∧ heap k1 = heap k ∧ kmem k1 = kmem k ∧ clocks k1 = clocks k
  ∧ (err = 0 ∧ is_Some (gpios k1 !! g)
     ∧ gpio_level k1 g = truthy (Z.land fl GPIOF_INIT_HIGH)
     ∨ (err = - EINVAL ∨ err = - EBUSY) ∧ gpios k1 = gpios k).
Proof.
  unfold request, devm_gpio_request_one, gpio_request_one. kern_unfold.
  destruct (truthy dev) eqn:Hdev;
    destruct (gpiolib_request g fl nm k) as [e k0] eqn:Hreq;
    apply gpiolib_request_spec in Hreq
      as (Hc & Hh & Hm & Hcl & Hd & Hres).
  - destruct (e =? 0); intros [= <- <-]; simpl; rewrite Hc;
      (repeat split; try assumption);
      destruct Hres as [(-> & Hs & Hl)|[He ->]]; auto.
  - apply truthy_false in Hdev as ->.
    intros [= <- <-]; simpl; rewrite Hc;
      (repeat split; try assumption);
      destruct Hres as [(-> & Hs & Hl)|[He ->]]; auto.
Qed.

Lemma alloc_spec dev k p k1 :
  alloc dev k = (p, k1) →
  calls k1 = calls k ++ [call_kzalloc dev p]
  ∧ gpios k1 = gpios k ∧ clocks k1 = clocks k
  ∧ (p = NULL ∨ p ≠ NULL ∧ heap k1 !! p = Some clk_gpio_zero).
Proof.
  unfold alloc, devm_kzalloc, kzalloc, slab_alloc. kern_unfold.
  destruct (truthy dev) eqn:Hdev; destruct (kmem k) as [|a rest];
    try (apply truthy_false in Hdev as ->);
    intros [= <- <-]; simpl; rewrite ?lookup_insert_eq; auto 10.
Qed.

Lemma clk_register_spec dev hw k c k1 :
  clk_register dev hw k = (c, k1) →
  let init := hw_init (default clk_gpio_zero (heap k !! hw)) in
  calls k1 = calls k ++ [call_clk_register dev hw init c]
  ∧ gpios k1 = gpios k ∧ heap k1 = heap k ∧ c ≠ NULL
  ∧ (IS_ERR c = false →
     clocks k1 !! c =
       Some {| core_name := init_name init; core_ops := init_ops init;
               core_hw := hw; core_flags := init_flags init;
               core_parent_names := init_parent_names init;
               core_num_parents := init_num_parents init |}).
Proof.
  unfold clk_register, clk_core_register. kern_unfold. cbn beta.
  destruct (kmem k) as [|a rest]; [|destruct (name_taken _ _)];
    intros [= <- <-]; simpl;
    (do 3 (split; [reflexivity|])); (split; [by vm_compute|]);
    intros H; try (by vm_compute in H).
  rewrite lookup_insert_eq. reflexivity.
Qed.

Lemma gpio_free_spec g k :
  gpio_free g k = (tt, set_gpios (alter release g)
                         (set_calls (λ l, l ++ [call_gpio_free g]) k)).
Proof. reflexivity. Qed.

Lemma kfree_spec p k :
  calls (kfree p k).2 = calls k ++ [call_kfree p]
  ∧ gpios (kfree p k).2 = gpios k ∧ clocks (kfree p k).2 = clocks k.
Proof.
  unfold kfree. kern_unfold. simpl.
  destruct p; simpl; auto. destruct (heap _ !! _); simpl; auto.
Qed.

End Collaborators.

Lemma clk_register_gpio_paths dev nm parent flags g al k :
  register_gpio_path dev nm parent flags g al k
    (clk_register_gpio dev nm parent flags g al k).1
    (clk_register_gpio dev nm parent flags g al k).2.
Proof.
  unfold clk_register_gpio, clk_register_gpio_err, pr_err, store.
  change (if truthy dev then devm_gpio_request_one dev g ?f nm
          else gpio_request_one g ?f nm) with (request dev g f nm).
  change (if truthy dev then devm_kzalloc dev else kzalloc) with (alloc dev).
  fold (gpio_init_flags al). fold (gpio_init_data nm parent flags).
  kern_unfold.
  destruct (request _ _ _ _ k) as [err k1] eqn:Hreq.
  apply request_spec in Hreq as (Hc1 & Hh1 & Hm1 & Hcl1 & Hres).
  destruct (truthy err) eqn:Herr.
  { apply truthy_true in Herr.
    destruct Hres as [(-> & _)|[He Hg]]; [done|].
    apply (path_request_failed _ _ _ _ _ _ _ _ _ err); [done|..].
    - destruct (truthy dev); reflexivity.
    - destruct (truthy dev); cbn [fst]; destruct He as [-> | ->]; reflexivity.
    - destruct (truthy dev); simpl; rewrite Hc1, <- ?app_assoc; reflexivity. }
  apply truthy_false in Herr as ->.
  destruct Hres as [(_ & Hline & Hlvl)|[[?|?] _]]; [|discriminate..].
  destruct (alloc dev k1) as [p k2] eqn:Halloc.
  apply alloc_spec in Halloc as (Hc2 & Hg2 & Hcl2 & Hp).
  destruct (truthy p) eqn:Htp; cbn [negb].
  2:{ apply truthy_false in Htp as ->.
      apply path_alloc_failed.
      - destruct (truthy dev); reflexivity.
      - destruct (truthy dev); reflexivity.
      - destruct (truthy dev); simpl; rewrite Hc2, Hc1, <- ?app_assoc; reflexivity. }
  apply truthy_true in Htp. destruct Hp as [->|[_ Hp]]; [done|].
  match goal with |- context [clk_register dev p ?k3] =>
    destruct (clk_register dev p k3) as [c k4] eqn:Hreg end.
  apply clk_register_spec in Hreg as (Hc4 & Hg4 & Hh4 & Hnz & Hok).
  cbn [heap set_heap] in Hc4, Hh4, Hok.
  rewrite lookup_alter_eq, Hp in Hc4, Hok. cbn in Hc4, Hok.
  cbn [calls set_heap] in Hc4. cbn [gpios set_heap] in Hg4.
  destruct (IS_ERR c) eqn:Hc; cbn [negb].
  - apply (path_register_failed _ _ _ _ _ _ _ _ _ p); [done|..].
    + destruct (truthy dev); assumption.
    + destruct (truthy dev); cbn [negb].
      * simpl. rewrite Hc4, Hc2, Hc1, <- !app_assoc. reflexivity.
      * destruct (kfree_spec p k4) as (Hk & _). revert Hk.
        destruct (kfree p k4) as [[] k5]. rewrite gpio_free_spec. cbn. intros ->.
        rewrite Hc4, Hc2, Hc1, <- !app_assoc. reflexivity.
  - apply (path_registered _ _ _ _ _ _ _ _ _ p); simpl; [done|done|done|..].
    + rewrite Hc4, Hc2, Hc1, <- !app_assoc. reflexivity.
    + by rewrite Hg4, Hg2.
    + unfold gpio_level in *. rewrite Hg4, Hg2, Hlvl.
      destruct al; reflexivity.
    + rewrite Hh4, lookup_alter_eq, Hp. reflexivity.
    + rewrite (Hok eq_refl). reflexivity.
Qed.

(** A clock that [clk_register_gpio] returned has a line that exists. *)
Lemma clk_register_gpio_line dev nm parent flags g al k :
  let r := clk_register_gpio dev nm parent flags g al k in
  IS_ERR r.1 = false → is_Some (gpios r.2 !! g).
Proof.
  intros r Hok. subst r.
  destruct (clk_register_gpio_paths dev nm parent flags g al k)
    as [err _ _ He _| _ He _|p _ He _|p _ _ _ _ Hline _ _ _];
    [congruence..|exact Hline].
Qed.

Lemma calls_since_app k k' log :
  calls k' = calls k ++ log → calls_since k k' = log.
Proof. unfold calls_since. intros ->. apply drop_app_length. Qed.

(** C1 (as the code has it). Whenever [clk_register_gpio] returns a
    clock, the line is at the active level of the polarity handed in
    (low for [active_low], high otherwise), the object behind the clock
    carries that line and polarity, and the framework's is_enabled query
    on the returned handle answers 1 and leaves the lines alone. *)
Theorem clk_register_gpio_starts_active
    (dev : Z) (nm : string) (parent : option string) (flags g : Z)
    (al : bool) (k : kernel) :
  let r := clk_register_gpio dev nm parent flags g al k in
  IS_ERR r.1 = false →
  gpio_level r.2 g = active_level al
  ∧ (∃ c hw, clocks r.2 !! r.1 = Some c ∧ heap r.2 !! core_hw c = Some hw
             ∧ gpio hw = g ∧ active_low hw = al)
  ∧ (∃ k', clk_is_enabled_of r.1 r.2 = Some (1, k') ∧ gpios k' = gpios r.2).
Proof.
  intros r Hok. subst r.
  destruct (clk_register_gpio_paths dev nm parent flags g al k)
    as [err _ _ He _| _ He _|p _ He _|p Hp Hc _ Hlog Hline Hlvl Hheap Hclk];
    try congruence.
  split; [exact Hlvl|]. split.
  - eexists _, _. split; [exact Hclk|]. cbn. split; [exact Hheap|]. done.
  - unfold clk_is_enabled_of. rewrite Hclk. cbn. rewrite Hheap. cbn.
    rewrite clk_gpio_is_enabled_eq. cbn [gpio active_low].
    rewrite Hlvl. eexists. split; [destruct al; reflexivity|reflexivity].
Qed.

Lemma clk_register_gpio_starts_active_witness :
  let r := clk_register_gpio NULL "osc" (Some "xtal") 0 42 false Board.boot in
  IS_ERR r.1 = false
  ∧ gpio_level r.2 42 = true
  ∧ (∃ c hw, clocks r.2 !! r.1 = Some c ∧ heap r.2 !! core_hw c = Some hw
             ∧ gpio hw = 42 ∧ active_low hw = false)
  ∧ (∃ k', clk_is_enabled_of r.1 r.2 = Some (1, k') ∧ gpios k' = gpios r.2).
Proof.
  split; [reflexivity|].
  apply (clk_register_gpio_starts_active NULL "osc" (Some "xtal") 0 42 false
           Board.boot).
  reflexivity.
Defined.

(** C1 (as stated) fails: registering an active-low clock on line 42
    succeeds, leaves the line low, not high, and is_enabled on the new
    clock answers 1, not 0. *)
Lemma clk_register_gpio_active_low_starts_on :
  let r := clk_register_gpio NULL "osc" None 0 42 true Board.boot in
  IS_ERR r.1 = false
  ∧ gpio_level r.2 42 = false
  ∧ fst <$> clk_is_enabled_of r.1 r.2 = Some 1
  ∧ ¬ (IS_ERR r.1 = false →
       gpio_level r.2 42 = true
       ∧ truthy <$> (fst <$> clk_is_enabled_of r.1 r.2) = Some false).
Proof.
  vm_compute. repeat split. intros H. destruct (H eq_refl) as [? _]. discriminate.
Qed.

(** C2 (as the code has it). When [clk_register_gpio] fails, the calls it
    made show which step failed and what was released.  The request
    failed: nothing was allocated, and with a device nothing is released.
    The allocation failed: without a device the line is released, once,
    and nothing else; with a device nothing is.  The registration failed:
    without a device the object is freed, once, then the line is
    released, once; with a device nothing is.  The result is the error of
    the failing step. *)
Theorem clk_register_gpio_rollback
    (dev : Z) (nm : string) (parent : option string) (flags g : Z)
    (al : bool) (k : kernel) :
  let r := clk_register_gpio dev nm parent flags g al k in
  let log := calls_since k r.2 in
  IS_ERR r.1 = true →
  (∃ err, err ≠ 0 ∧ r.1 = ERR_PTR err
     ∧ take 2 log = [call_gpio_request_one dev g (gpio_init_flags al) nm err;
                     msg_request nm g]
     ∧ allocations log = []
     ∧ (dev ≠ NULL → released log = []))
  ∨ (r.1 = ERR_PTR (- ENOMEM)
     ∧ log = [call_gpio_request_one dev g (gpio_init_flags al) nm 0;
              call_kzalloc dev NULL; msg_alloc nm] ++ released log
     ∧ released log = if truthy dev then [] else [call_gpio_free g])
  ∨ (∃ p, p ≠ NULL
     ∧ log = [call_gpio_request_one dev g (gpio_init_flags al) nm 0;
              call_kzalloc dev p;
              call_clk_register dev p (gpio_init_data nm parent flags) r.1]
             ++ released log
     ∧ released log =
         if truthy dev then [] else [call_kfree p; call_gpio_free g]).
Proof.
  intros r log Hfail. subst r log.
  destruct (clk_register_gpio_paths dev nm parent flags g al k)
    as [err Herr Hr _ Hlog| Hr _ Hlog|p Hp _ Hlog|p _ _ Hok _ _ _ _ _];
    try congruence; apply calls_since_app in Hlog; rewrite Hlog.
  - left. exists err.
    destruct (truthy dev) eqn:Hdev; (repeat split; try done).
    intros Hn. apply truthy_false in Hdev. done.
  - right; left. destruct (truthy dev); repeat split; done.
  - right; right. exists p. destruct (truthy dev); repeat split; done.
Qed.

Lemma clk_register_gpio_rollback_witness :
  let r := clk_register_gpio NULL "osc" None 0 42 false Board.boot_osc_taken in
  IS_ERR r.1 = true
  ∧ released (calls_since Board.boot_osc_taken r.2)
    = [call_kfree 16; call_gpio_free 42].
Proof.
  split; [reflexivity|].
  destruct (clk_register_gpio_rollback NULL "osc" None 0 42 false
              Board.boot_osc_taken eq_refl)
    as [(err & _ & _ & H & _)|[(_ & H & _)|(p & _ & H & _)]];
    [vm_compute in H; discriminate H..|].
  vm_compute. reflexivity.
Defined.

(** C2 (as stated) fails: with a device, a registration that fails (the
    name "osc" is taken) releases neither the object nor the line before
    the error is returned; both stay with the device. *)
Lemma clk_register_gpio_managed_keeps_resources :
  let k := Board.boot_osc_taken in
  let r := clk_register_gpio 4096 "osc" None 0 42 false k in
  r.1 = ERR_PTR (- EEXIST)
  ∧ IS_ERR r.1 = true
  ∧ calls_since k r.2 =
      [call_gpio_request_one 4096 42 GPIOF_OUT_INIT_HIGH "osc" 0;
       call_kzalloc 4096 16;
       call_clk_register 4096 16 (gpio_init_data "osc" None 0) r.1]
  ∧ released (calls_since k r.2) = []
  ∧ line_owner <$> gpios r.2 !! 42 = Some (Some "osc")
  ∧ is_Some (heap r.2 !! 16)
  ∧ devm r.2 = [devres_gpio 4096 42; devres_mem 4096 16].
Proof. vm_compute. repeat split; eauto. Qed.

(** The request path without a device: the shared exit label releases a
    line the call never obtained.  Line 7 belongs to the backlight
    driver; the failed request for it ends with [gpio_free(7)], and the
    line has no owner afterwards. *)
Lemma clk_register_gpio_frees_unowned_line :
  let k := Board.boot in
  let r := clk_register_gpio NULL "osc" None 0 7 false k in
  line_owner <$> gpios k !! 7 = Some (Some "backlight")
  ∧ r.1 = ERR_PTR (- EBUSY)
  ∧ calls_since k r.2 =
      [call_gpio_request_one NULL 7 GPIOF_OUT_INIT_HIGH "osc" (- EBUSY);
       msg_request "osc" 7; call_gpio_free 7]
  ∧ line_owner <$> gpios r.2 !! 7 = Some None.
Proof. vm_compute. repeat split. Qed.

(** ** The provider *)

Lemma logged_logged a b k : logged b (logged a k) = logged (a ++ b) k.
Proof. unfold logged, set_calls. simpl. by rewrite app_assoc. Qed.

Ltac fold_logged :=
  repeat match goal with
  | |- context [set_calls (λ l, l ++ ?cs) ?k] =>
      change (set_calls (λ l, l ++ cs) k) with (logged cs k)
  end;
  rewrite ?logged_logged; cbn [app].

Lemma unchanged_logged cs k : unchanged k (logged cs k).
Proof. by repeat split. Qed.

Lemma calls_since_logged cs k : calls_since k (logged cs k) = cs.
Proof. by apply calls_since_app. Qed.

Lemma set_lock_released data :
  lock data = false → set_lock false (set_lock true data) = data.
Proof. destruct data as [n l c]. simpl. by intros ->. Qed.

Lemma PTR_ERR_ERR_PTR e :
  - MAX_ERRNO ≤ e < 0 → IS_ERR (ERR_PTR e) = true ∧ PTR_ERR (ERR_PTR e) = e.
Proof.
  intros He. unfold IS_ERR, PTR_ERR, ERR_PTR, MAX_ERRNO, BITS_PER_LONG in *.
  change (2 ^ (32 - 1)) with 2147483648.
  change (2 ^ 32) with 4294967296.
  replace (e mod 4294967296) with (e + 4294967296)
    by (apply Z.mod_unique with (-1); lia).
  change (Z.opp 4095 mod 4294967296) with 4294963201.
  split; [apply Z.leb_le; lia|].
  destruct (Z.ltb_spec (e + 4294967296) 2147483648); lia.
Qed.

Section ProviderFacts.
Variable of_get_named_gpio_flags :
  device_node → string → Z → kernel → Z * Z.
Variable of_clk_get_parent_name :
  device_node → Z → kernel → option string.
Variable clkspec : list Z.

Local Abbreviation get :=
(of_clk_gpio_delayed_register_get
     of_get_named_gpio_flags of_clk_get_parent_name clkspec).

Implicit Types (data : clk_gpio_delayed_register_data) (k : kernel).

Local Abbreviation lookup_of' := (lookup_of of_get_named_gpio_flags).
Local Abbreviation lookup_call' := (lookup_call of_get_named_gpio_flags).
Local Abbreviation parent_of' := (parent_of of_get_named_gpio_flags of_clk_get_parent_name).
Local Abbreviation construct_of' := (construct_of of_get_named_gpio_flags of_clk_get_parent_name).

Lemma get_blocked data k : lock data = true → get data k = None.
Proof. unfold of_clk_gpio_delayed_register_get. by intros ->. Qed.

Lemma get_cached data k :
  lock data = false → clk data ≠ NULL →
  get data k =
    Some (clk data, data, logged [call_mutex_lock; call_mutex_unlock] k).
Proof.
  intros Hl Hc. apply truthy_true in Hc.
  unfold of_clk_gpio_delayed_register_get, delayed_register_locked, mutex_unlock.
  rewrite Hl. kern_unfold. cbn. rewrite Hc. cbn.
  fold_logged. rewrite (set_lock_released _ Hl). reflexivity.
Qed.

Lemma get_lookup_failed data k :
  lock data = false → clk data = NULL → (lookup_of' data k).1 < 0 →
  get data k =
    Some (ERR_PTR (lookup_of' data k).1, data,
          logged ([call_mutex_lock; lookup_call' data k; call_mutex_unlock]
                  ++ (if (lookup_of' data k).1 =? - EPROBE_DEFER then []
                      else [msg_lookup (name (node data))])) k).
Proof.
  intros Hl Hc Hneg. 
  unfold of_clk_gpio_delayed_register_get, delayed_register_locked,
    mutex_unlock, pr_err, lookup_call, lookup_of in *.
  rewrite Hl. kern_unfold.
  cbn -[clk_register_gpio Z.land Z.ltb Z.eqb set_calls truthy].
  rewrite Hc. change (truthy NULL) with false. cbv beta iota.
  fold_logged.
  destruct (of_get_named_gpio_flags _ _ _ _) as [gp fl]. cbn [fst snd] in *.
  apply Z.ltb_lt in Hneg. rewrite Hneg.
  destruct (gp =? - EPROBE_DEFER); cbn [negb]; kern_unfold; fold_logged;
    rewrite (set_lock_released _ Hl); reflexivity.
Qed.

Lemma get_construct data k :
  lock data = false → clk data = NULL → 0 ≤ (lookup_of' data k).1 →
  get data k =
    Some ((construct_of' data k).1,
          (if IS_ERR (construct_of' data k).1 then data
           else set_clk (construct_of' data k).1 data),
          logged [call_mutex_unlock] (construct_of' data k).2).
Proof.
  intros Hl Hc Hpos.
  unfold of_clk_gpio_delayed_register_get, delayed_register_locked,
    mutex_unlock, pr_err, construct_of, parent_of,
    lookup_call, lookup_of in *.
  rewrite Hl. kern_unfold.
  cbn -[clk_register_gpio Z.land Z.ltb Z.eqb set_calls truthy].
  rewrite Hc. change (truthy NULL) with false. cbv beta iota.
  fold_logged.
  destruct (of_get_named_gpio_flags _ _ _ _) as [gp fl]. cbn [fst snd] in *.
  apply Z.ltb_ge in Hpos. rewrite Hpos. fold_logged.
  destruct (clk_register_gpio _ _ _ _ _ _ _) as [c k3]. cbn [fst snd].
  destruct (IS_ERR c); fold_logged.
  - rewrite (set_lock_released _ Hl); reflexivity.
  - destruct data as [n l cl]; simpl in *; subst; reflexivity.
Qed.

Lemma logged_nil k : logged [] k = k.
Proof. destruct k. unfold logged, set_calls. simpl. by rewrite app_nil_r. Qed.

Lemma get_n_cached data k n :
  lock data = false → clk data ≠ NULL →
  get_n get n data k =
    Some (replicate n (clk data), data,
          logged (mjoin (replicate n [call_mutex_lock; call_mutex_unlock])) k).
Proof.
  intros Hl Hc. revert k. induction n as [|n IH]; intros k.
  - simpl. by rewrite logged_nil.
  - cbn [get_n]. rewrite get_cached by assumption. cbn.
    rewrite IH. cbn. by rewrite logged_logged.
Qed.

End ProviderFacts.

(** C3. Once [data->clk] is set, a call of the provider returns it and
    leaves [data] as it was; so do any number of calls in a row.  Each
    call takes and releases the mutex and does nothing else: no
    device-tree lookup, no line request, no registration. *)
Theorem resolved_is_final
    (of_get_named_gpio_flags : device_node → string → Z → kernel → Z * Z)
    (of_clk_get_parent_name : device_node → Z → kernel → option string)
    (clkspec : list Z) (data : clk_gpio_delayed_register_data) (k : kernel)
    (n : nat) :
  lock data = false → clk data ≠ NULL →
  ∃ k',
    get_n (of_clk_gpio_delayed_register_get
             of_get_named_gpio_flags of_clk_get_parent_name clkspec) n data k
    = Some (replicate n (clk data), data, k')
    ∧ calls_since k k'
      = mjoin (replicate n [call_mutex_lock; call_mutex_unlock])
    ∧ unchanged k k'.
Proof.
  intros Hl Hc. eexists. split; [by apply get_n_cached|].
  split; [apply calls_since_logged|apply unchanged_logged].
Qed.

Lemma resolved_is_final_witness :
  let data := {| node := Board.osc_node; lock := false; clk := 32 |} in
  lock data = false ∧ clk data ≠ NULL
  ∧ ∃ k', get_n Board.get 3 data Board.boot = Some ([32; 32; 32], data, k')
          ∧ calls_since Board.boot k'
            = [call_mutex_lock; call_mutex_unlock; call_mutex_lock;
               call_mutex_unlock; call_mutex_lock; call_mutex_unlock]
          ∧ unchanged Board.boot k'.
Proof.
  split; [reflexivity|]. split; [discriminate|].
  apply (resolved_is_final dt_get_named_gpio_flags dt_clk_get_parent_name []
           {| node := Board.osc_node; lock := false; clk := 32 |}
           Board.boot 3); [reflexivity|discriminate].
Defined.

(** C5. When the gpio lookup of an unresolved provider fails, the call
    returns the lookup's error as an error pointer and leaves [data] as
    it was.  Its calls are: take the mutex, look up, release the mutex,
    and then one [pr_err] unless the error is [-EPROBE_DEFER], for which
    nothing is logged.  Nothing but the call log changes: no line is
    requested and no clock registered. *)
Theorem lookup_failure_propagates
    (of_get_named_gpio_flags : device_node → string → Z → kernel → Z * Z)
    (of_clk_get_parent_name : device_node → Z → kernel → option string)
    (clkspec : list Z) (data : clk_gpio_delayed_register_data) (k : kernel) :
  let gp := (lookup_of of_get_named_gpio_flags data k).1 in
  lock data = false → clk data = NULL → gp < 0 →
  ∃ k',
    of_clk_gpio_delayed_register_get
      of_get_named_gpio_flags of_clk_get_parent_name clkspec data k
    = Some (ERR_PTR gp, data, k')
    ∧ calls_since k k'
      = [call_mutex_lock; lookup_call of_get_named_gpio_flags data k;
         call_mutex_unlock]
        ++ (if gp =? - EPROBE_DEFER then []
            else [msg_lookup (name (node data))])
    ∧ unchanged k k'
    ∧ (- MAX_ERRNO ≤ gp → IS_ERR (ERR_PTR gp) = true ∧ PTR_ERR (ERR_PTR gp) = gp).
Proof.
  intros gp Hl Hc Hneg. eexists. split; [by apply get_lookup_failed|].
  split; [apply calls_since_logged|]. split; [apply unchanged_logged|].
  intros Hge. apply PTR_ERR_ERR_PTR. lia.
Qed.

Lemma lookup_failure_propagates_witness :
  let data := of_gpio_clk_setup_data Board.lcd_node in
  ∃ k', Board.get data Board.boot = Some (ERR_PTR (- EPROBE_DEFER), data, k')
        ∧ calls_since Board.boot k'
          = [call_mutex_lock;
             call_of_get_named_gpio_flags "lcd" "enable-gpios" 0 (- EPROBE_DEFER);
             call_mutex_unlock].
Proof.
  destruct (lookup_failure_propagates
              dt_get_named_gpio_flags dt_clk_get_parent_name []
              (of_gpio_clk_setup_data Board.lcd_node) Board.boot
              eq_refl eq_refl eq_refl) as (k' & Hget & Hlog & _).
  exists k'. split; [exact Hget|exact Hlog].
Defined.

Lemma lookup_failure_logged_example :
  let data := of_gpio_clk_setup_data Board.bad_node in
  ∃ k', Board.get data Board.boot = Some (ERR_PTR (- ENOENT), data, k')
        ∧ calls_since Board.boot k'
          = [call_mutex_lock;
             call_of_get_named_gpio_flags "bad" "enable-gpios" 0 (- ENOENT);
             call_mutex_unlock; msg_lookup "bad"].
Proof. eexists. split; vm_compute; reflexivity. Qed.

Lemma clk_register_gpio_log dev nm parent flags g al k :
  let r := clk_register_gpio dev nm parent flags g al k in
  ∃ err rest,
    calls r.2 = calls k ++
      call_gpio_request_one dev g (gpio_init_flags al) nm err :: rest
    ∧ ∀ d hw init ret, call_clk_register d hw init ret ∈ rest →
        init = gpio_init_data nm parent flags.
Proof.
  intros r. subst r.
  destruct (clk_register_gpio_paths dev nm parent flags g al k)
    as [err _ _ _ Hlog| _ _ Hlog|p _ _ Hlog|p _ _ _ Hlog _ _ _ _];
    rewrite Hlog; eexists _, _; (split; [reflexivity|]);
    intros d hw init ret Hin; destruct (truthy dev);
    unfold msg_request, msg_alloc in Hin;
    repeat (apply elem_of_cons in Hin as [Hin|Hin]; [congruence|]);
    by apply elem_of_nil in Hin.
Qed.

Section ProviderLogFacts.
Variable of_get_named_gpio_flags :
  device_node → string → Z → kernel → Z * Z.
Variable of_clk_get_parent_name :
  device_node → Z → kernel → option string.
Variable clkspec : list Z.

Local Abbreviation get :=
(of_clk_gpio_delayed_register_get
     of_get_named_gpio_flags of_clk_get_parent_name clkspec).
Local Abbreviation lookup_of' := (lookup_of of_get_named_gpio_flags).
Local Abbreviation lookup_call' := (lookup_call of_get_named_gpio_flags).
Local Abbreviation parent_of' := (parent_of of_get_named_gpio_flags of_clk_get_parent_name).
Local Abbreviation construct_of' := (construct_of of_get_named_gpio_flags of_clk_get_parent_name).

Implicit Types (data : clk_gpio_delayed_register_data) (k : kernel).

(** The calls of a provider call that gets as far as
    [clk_register_gpio]. *)
Lemma construct_of_log data k :
  ∃ err rest,
    calls (construct_of' data k).2 = calls k ++
      [call_mutex_lock; lookup_call' data k; parent_call data;
       call_gpio_request_one NULL (lookup_of' data k).1
         (gpio_init_flags
            (truthy (Z.land (lookup_of' data k).2 OF_GPIO_ACTIVE_LOW)))
         (name (node data)) err] ++ rest
    ∧ ∀ d hw init ret, call_clk_register d hw init ret ∈ rest →
        init = gpio_init_data (name (node data)) (parent_of' data k) 0.
Proof.
  unfold construct_of.
  destruct (clk_register_gpio_log NULL (name (node data)) (parent_of' data k) 0
              (lookup_of' data k).1
              (truthy (Z.land (lookup_of' data k).2 OF_GPIO_ACTIVE_LOW))
              (logged [call_mutex_lock; lookup_call' data k; parent_call data] k))
    as (err & rest & Hlog & Hinit).
  exists err, rest. split; [|exact Hinit].
  rewrite Hlog. cbn. rewrite <- app_assoc. reflexivity.
Qed.

(** An unresolved provider starts over: it looks the line up, and when
    the lookup answers a line it asks for the parent and requests the
    line. *)
Lemma get_unresolved_log data k :
  lock data = false → clk data = NULL →
  ∃ r data' k',
    get data k = Some (r, data', k')
    ∧ take 2 (calls_since k k') = [call_mutex_lock; lookup_call' data k]
    ∧ (0 ≤ (lookup_of' data k).1 →
       ∃ err,
         take 4 (calls_since k k') =
           [call_mutex_lock; lookup_call' data k; parent_call data;
            call_gpio_request_one NULL (lookup_of' data k).1
              (gpio_init_flags
                 (truthy (Z.land (lookup_of' data k).2 OF_GPIO_ACTIVE_LOW)))
              (name (node data)) err]).
Proof.
  intros Hl Hc.
  destruct (Z.lt_ge_cases (lookup_of' data k).1 0) as [Hneg|Hpos].
  - eexists _, _, _. split; [by apply get_lookup_failed|].
    rewrite calls_since_logged. split; [reflexivity|]. lia.
  - eexists _, _, _. split; [by apply get_construct|].
    destruct (construct_of_log data k) as (err & rest & Hlog & _).
    erewrite calls_since_app
      by (cbn [calls logged set_calls]; rewrite Hlog, <- app_assoc; reflexivity).
    split; [reflexivity|]. intros _. exists err. reflexivity.
Qed.

Lemma get_log_flags data k r data' k' d hw init ret :
  get data k = Some (r, data', k') →
  call_clk_register d hw init ret ∈ calls_since k k' →
  init_flags init = CLK_IS_BASIC.
Proof.
  intros Hget Hin.
  destruct (lock data) eqn:Hl; [by rewrite get_blocked in Hget|].
  destruct (Z.eq_dec (clk data) NULL) as [Hc|Hc].
  - destruct (Z.lt_ge_cases (lookup_of' data k).1 0) as [Hneg|Hpos].
    + rewrite get_lookup_failed in Hget by assumption.
      injection Hget as <- <- <-. rewrite calls_since_logged in Hin.
      unfold lookup_call, msg_lookup in Hin.
      destruct (_ =? _) in Hin;
        repeat (apply elem_of_cons in Hin as [Hin|Hin]; [congruence|]);
        by apply elem_of_nil in Hin.
    + rewrite get_construct in Hget by assumption.
      injection Hget as <- <- <-.
      destruct (construct_of_log data k) as (err & rest & Hlog & Hinit).
      erewrite calls_since_app in Hin
        by (cbn [calls logged set_calls]; rewrite Hlog, <- app_assoc; reflexivity).
      unfold lookup_call, parent_call in Hin.
      cbn [app] in Hin.
      do 4 (apply elem_of_cons in Hin as [Hin|Hin]; [congruence|]).
      apply elem_of_app in Hin as [Hin|Hin].
      * apply Hinit in Hin as ->. reflexivity.
      * apply elem_of_cons in Hin as [Hin|Hin]; [congruence|].
        by apply elem_of_nil in Hin.
  - rewrite get_cached in Hget by assumption.
    injection Hget as <- <- <-. rewrite calls_since_logged in Hin.
    repeat (apply elem_of_cons in Hin as [Hin|Hin]; [congruence|]).
    by apply elem_of_nil in Hin.
Qed.

End ProviderLogFacts.

(** C6. When the lookup of an unresolved provider answers a line and
    [clk_register_gpio] then fails, the call returns that error and
    leaves [data] as it was, [data->clk] still [NULL].  A later call on
    it, from any state, starts over: it looks the line up again and, when
    the lookup answers a line, asks for the parent and requests the line
    again. *)
Theorem construct_failure_stays_unresolved
    (of_get_named_gpio_flags : device_node → string → Z → kernel → Z * Z)
    (of_clk_get_parent_name : device_node → Z → kernel → option string)
    (clkspec : list Z) (data : clk_gpio_delayed_register_data) (k : kernel) :
  let get := of_clk_gpio_delayed_register_get
               of_get_named_gpio_flags of_clk_get_parent_name clkspec in
  let lookup := lookup_of of_get_named_gpio_flags data in
  let c := construct_of of_get_named_gpio_flags of_clk_get_parent_name data k in
  lock data = false → clk data = NULL → 0 ≤ (lookup k).1 →
  IS_ERR c.1 = true →
  get data k = Some (c.1, data, logged [call_mutex_unlock] c.2)
  ∧ ∀ k2, ∃ r data' k3,
      get data k2 = Some (r, data', k3)
      ∧ take 2 (calls_since k2 k3)
        = [call_mutex_lock; lookup_call of_get_named_gpio_flags data k2]
      ∧ (0 ≤ (lookup k2).1 →
         ∃ err,
           take 4 (calls_since k2 k3) =
             [call_mutex_lock; lookup_call of_get_named_gpio_flags data k2;
              parent_call data;
              call_gpio_request_one NULL (lookup k2).1
                (gpio_init_flags
                   (truthy (Z.land (lookup k2).2 OF_GPIO_ACTIVE_LOW)))
                (name (node data)) err]).
Proof.
  intros get lookup c Hl Hc Hpos Hfail. subst get lookup c. split.
  - rewrite get_construct by assumption. by rewrite Hfail.
  - intros k2. by apply get_unresolved_log.
Qed.

Lemma construct_failure_stays_unresolved_witness :
  let data := of_gpio_clk_setup_data Board.osc_node in
  let k := Board.boot_osc_taken in
  ∃ k', Board.get data k = Some (ERR_PTR (- EEXIST), data, k')
        ∧ released (calls_since k k') = [call_kfree 16; call_gpio_free 42].
Proof.
  destruct (construct_failure_stays_unresolved
              dt_get_named_gpio_flags dt_clk_get_parent_name []
              (of_gpio_clk_setup_data Board.osc_node) Board.boot_osc_taken
              eq_refl eq_refl) as [Hget _].
  - vm_compute. discriminate.
  - reflexivity.
  - eexists. split; [exact Hget|]. vm_compute. reflexivity.
Defined.

(** ** Concurrent callers *)

Ltac step_simpl :=
  cbn -[clk_register_gpio Z.land Z.ltb Z.eqb logged truthy IS_ERR ERR_PTR
        set_lock set_clk];
  change (clk (set_lock true ?d)) with (clk d) in *;
  change (node (set_lock true ?d)) with (node d) in *.

Section CallersFacts.
Variable of_get_named_gpio_flags :
  device_node → string → Z → kernel → Z * Z.
Variable of_clk_get_parent_name :
  device_node → Z → kernel → option string.
Variable clkspec : list Z.

Local Abbreviation get :=
  (of_clk_gpio_delayed_register_get
     of_get_named_gpio_flags of_clk_get_parent_name clkspec).
Local Abbreviation step' := (step of_get_named_gpio_flags of_clk_get_parent_name).
Local Abbreviation solo' := (solo of_get_named_gpio_flags of_clk_get_parent_name).
Local Abbreviation lookup_of' := (lookup_of of_get_named_gpio_flags).
Local Abbreviation construct_of' := (construct_of of_get_named_gpio_flags of_clk_get_parent_name).

Implicit Types (data : clk_gpio_delayed_register_data) (k : kernel).

(** A caller that runs alone from [at_lock] makes the moves of the
    sequential function and returns what it returns. *)
Lemma solo_get data k :
  lock data = false →
  ∃ r data' k',
    get data k = Some (r, data', k')
    ∧ solo' 5 at_lock data k = (returned r, data', k').
Proof.
  intros Hl.
  destruct (Z.eq_dec (clk data) NULL) as [Hc|Hc].
  - destruct (Z.lt_ge_cases (lookup_of' data k).1 0) as [Hneg|Hpos].
    + eexists _, _, _. split; [by apply get_lookup_failed|].
      unfold lookup_call, lookup_of in *.
      step_simpl. rewrite Hl. step_simpl. rewrite Hc.
      change (truthy NULL) with false. step_simpl.
      destruct (of_get_named_gpio_flags _ _ _ _) as [gp fl]. cbn [fst] in *.
      apply Z.ltb_lt in Hneg. rewrite Hneg. step_simpl.
      rewrite (set_lock_released _ Hl).
      destruct (gp =? - EPROBE_DEFER); step_simpl; by rewrite !logged_logged.
    + eexists _, _, _. split; [by apply get_construct|].
      unfold construct_of, parent_of,
        lookup_call, lookup_of, parent_call in *.
      step_simpl. rewrite Hl. step_simpl. rewrite Hc.
      change (truthy NULL) with false. step_simpl.
      destruct (of_get_named_gpio_flags _ _ _ _) as [gp fl]. cbn [fst snd] in *.
      apply Z.ltb_ge in Hpos. rewrite Hpos. step_simpl.
      rewrite !logged_logged. cbn [app].
      destruct (clk_register_gpio _ _ _ _ _ _ _) as [c k3]. step_simpl.
      destruct (IS_ERR c); step_simpl.
      * by rewrite (set_lock_released _ Hl).
      * destruct data as [n l cl]; simpl in *; subst; reflexivity.
  - eexists _, _, _. split; [by apply get_cached|].
    apply truthy_true in Hc.
    step_simpl. rewrite Hl. step_simpl. rewrite Hc. step_simpl.
    rewrite (set_lock_released _ Hl). by rewrite logged_logged.
Qed.

End CallersFacts.

(** *** Logs with one successful registration *)

Lemma is_registered_construct c : is_registered c = true → is_construct c = true.
Proof. by destruct c. Qed.

Lemma noconstruct_notreg l : noconstruct l = true → notreg l = true.
Proof.
  induction l as [|c l IH]; [done|]. cbn.
  intros [Hc Hl]%andb_prop. rewrite (IH Hl), andb_true_r.
  destruct (is_registered c) eqn:Hr; [|done].
  apply is_registered_construct in Hr. by rewrite Hr in Hc.
Qed.

Lemma once_of_none l : notreg l = true → registered_once l = true.
Proof.
  induction l as [|c l IH]; [done|]. cbn.
  intros [Hc Hl]%andb_prop. destruct (is_registered c); [done|by apply IH].
Qed.

Lemma once_app_none l new :
  notreg l = true → registered_once new = true →
  registered_once (l ++ new) = true.
Proof.
  induction l as [|c l IH]; [done|]. cbn.
  intros [Hc Hl]%andb_prop Hnew. destruct (is_registered c); [done|by apply IH].
Qed.

Lemma once_app l new :
  registered_once l = true → noconstruct new = true →
  registered_once (l ++ new) = true.
Proof.
  induction l as [|c l IH]; cbn.
  - intros _ Hnew. by apply once_of_none, noconstruct_notreg.
  - destruct (is_registered c); [|by apply IH].
    intros Hl Hnew. by rewrite forallb_app, Hl, Hnew.
Qed.

Lemma once_count l :
  registered_once l = true →
  (length (List.filter is_registered l) ≤ 1)%nat.
Proof.
  induction l as [|c l IH]; cbn; [lia|].
  destruct (is_registered c); [|exact IH].
  intros Hl%noconstruct_notreg. cbn.
  assert (List.filter is_registered l = []) as ->; [|cbn; lia].
  clear -Hl. induction l as [|d l IH]; [done|]. cbn in *.
  apply andb_prop in Hl as [Hd Hl]. destruct (is_registered d); [done|by apply IH].
Qed.

(** The calls of the constructor, as a caller of the provider makes them. *)
Lemma construct_log nm parent g al k :
  let r := clk_register_gpio NULL nm parent 0 g al k in
  ∃ new,
    calls r.2 = calls k ++ new
    ∧ registered_once new = true
    ∧ (IS_ERR r.1 = true → notreg new = true)
    ∧ (IS_ERR r.1 = false → r.1 ≠ NULL).
Proof.
  intros r. subst r.
  pose proof (clk_register_gpio_paths NULL nm parent 0 g al k) as P.
  destruct (clk_register_gpio NULL nm parent 0 g al k) as [c k'].
  cbn [fst snd] in *.
  destruct P as [err _ _ He Hlog| _ He Hlog|p _ He Hlog|p _ Hnz Hok Hlog _ _ _ _];
    eexists; (split; [exact Hlog|]); cbn; rewrite ?He, ?Hok; cbn;
    repeat split; intros; congruence.
Qed.

(** *** The invariant of concurrent callers *)

Lemma lookup_insert_cases (ts : list pc) i t' j tj :
  <[i:=t']> ts !! j = Some tj →
  (j = i ∧ tj = t') ∨ (j ≠ i ∧ ts !! j = Some tj).
Proof.
  intros [(-> & -> & _)|[Hne Hj]]%list_lookup_insert_Some; [by left|by right].
Qed.

Lemma thread_ok_clk d d' t : clk d' = clk d → thread_ok d t → thread_ok d' t.
Proof. destruct t; cbn; intros Hc; rewrite ?Hc; done. Qed.

Section Moves.
Variables (log : list call) (d : clk_gpio_delayed_register_data) (k : kernel)
  (ts : list pc) (i : nat) (t : pc).
Hypothesis Hinv : invariant log {| shared := d; world := k; threads := ts |}.
Hypothesis Hi : ts !! i = Some t.

(** While caller [i] is inside, nobody else is. *)
Lemma others_outside j tj :
  in_cs t = true → j ≠ i → ts !! j = Some tj → in_cs tj = false.
Proof.
  intros Ht Hne Hj. destruct (in_cs tj) eqn:Htj; [|done].
  destruct Hne. exact (inv_mutex _ _ Hinv j i tj t Hj Hi Htj Ht).
Qed.

(** While the mutex is free, nobody is inside. *)
Lemma free_outside j tj : lock d = false → ts !! j = Some tj → in_cs tj = false.
Proof.
  intros Hl Hj. destruct (in_cs tj) eqn:Htj; [|done].
  pose proof (inv_lock _ _ Hinv j tj Hj Htj) as Hlock. cbn in Hlock. congruence.
Qed.

(** The mutex part of the invariant after caller [i] moved to [t'],
    when it entered only through a free mutex and touched the mutex
    only on entering or leaving. *)
Lemma move_mutex t' d' :
  (in_cs t' = true → lock d' = true) →
  (in_cs t' = true → in_cs t = true ∨ lock d = false) →
  (in_cs t = false → lock d' = lock d ∨ lock d = false) →
  (∀ j tj, <[i:=t']> ts !! j = Some tj → in_cs tj = true → lock d' = true)
  ∧ (∀ j1 j2 t1 t2, <[i:=t']> ts !! j1 = Some t1 → <[i:=t']> ts !! j2 = Some t2 →
       in_cs t1 = true → in_cs t2 = true → j1 = j2).
Proof.
  intros Hin Henter Hout.
  assert (Hothers : ∀ j tj, j ≠ i → ts !! j = Some tj → in_cs tj = true →
            in_cs t = false ∧ in_cs t' = false ∧ lock d' = true).
  { intros j tj Hne Hj Htj. destruct (in_cs t) eqn:Ht.
    - by rewrite (others_outside j tj) in Htj.
    - pose proof (inv_lock _ _ Hinv j tj Hj Htj) as Hlock. cbn in Hlock.
      destruct (Hout eq_refl) as [Hsame|Hfree]; [|congruence].
      split; [done|]. split; [|congruence].
      destruct (in_cs t') eqn:Ht'; [|done].
      destruct (Henter eq_refl) as [?|?]; congruence. }
  split.
  - intros j tj [[-> ->]|[Hne Hj]]%lookup_insert_cases Htj; [by apply Hin|].
    by apply (Hothers j tj).
  - intros j1 j2 t1 t2 [[-> ->]|[Hne1 Hj1]]%lookup_insert_cases
      [[-> ->]|[Hne2 Hj2]]%lookup_insert_cases Ht1 Ht2; [done|..].
    + destruct (Hothers j2 t2 Hne2 Hj2 Ht2) as (_ & ? & _). congruence.
    + destruct (Hothers j1 t1 Hne1 Hj1 Ht1) as (_ & ? & _). congruence.
    + exact (inv_mutex _ _ Hinv j1 j2 t1 t2 Hj1 Hj2 Ht1 Ht2).
Qed.

(** A move that neither writes [data->clk] nor requests or registers
    anything keeps the invariant. *)
Lemma move_quiet t' d' k' new :
  clk d' = clk d →
  (in_cs t' = true → lock d' = true) →
  (in_cs t' = true → in_cs t = true ∨ lock d = false) →
  (in_cs t = false → lock d' = lock d ∨ lock d = false) →
  thread_ok d' t' →
  noconstruct new = true →
  (∀ c, t = at_registered c → IS_ERR c = true) →
  invariant (log ++ new)
    {| shared := d'; world := k'; threads := <[i:=t']> ts |}.
Proof.
  intros Hclk Hin Henter Hout Hok Hquiet Hreg.
  destruct (move_mutex t' d' Hin Henter Hout) as [Hlock Hmutex].
  split; cbn.
  - exact Hlock.
  - exact Hmutex.
  - intros j tj [[-> ->]|[Hne Hj]]%lookup_insert_cases; [done|].
    apply (thread_ok_clk d); [done|]. exact (inv_thread _ _ Hinv j tj Hj).
  - apply once_app; [exact (inv_once _ _ Hinv)|done].
  - intros Hnull Hall. rewrite forallb_app, (noconstruct_notreg _ Hquiet), andb_true_r.
    apply (inv_none _ _ Hinv); cbn; [congruence|].
    intros j c Hj. destruct (decide (j = i)) as [->|Hne].
    + apply Hreg. congruence.
    + apply (Hall j c). by rewrite list_lookup_insert_ne.
Qed.

(** The move through [clk_register_gpio]: the caller is inside and
    [data->clk] is still [NULL], so the log has no successful
    registration yet. *)
Lemma move_register c k' new :
  in_cs t = true →
  clk d = NULL →
  (∀ c', t ≠ at_registered c') →
  (IS_ERR c = false → c ≠ NULL) →
  registered_once new = true →
  (IS_ERR c = true → notreg new = true) →
  invariant (log ++ new)
    {| shared := d; world := k'; threads := <[i:=at_registered c]> ts |}.
Proof.
  intros Ht Hnull Hnot Hnz Honce Hfail.
  destruct (move_mutex (at_registered c) d) as [Hlock Hmutex];
    [intros _; exact (inv_lock _ _ Hinv i t Hi Ht)|by left|congruence|].
  assert (Hnone : notreg log = true).
  { apply (inv_none _ _ Hinv); [done|]. cbn. intros j c' Hj.
    destruct (decide (j = i)) as [->|Hne]; [by destruct (Hnot c'); congruence|].
    by pose proof (others_outside j _ Ht Hne Hj). }
  split; cbn.
  - exact Hlock.
  - exact Hmutex.
  - intros j tj [[-> ->]|[Hne Hj]]%lookup_insert_cases; [done|].
    exact (inv_thread _ _ Hinv j tj Hj).
  - by apply once_app_none.
  - intros _ Hall. rewrite forallb_app, Hnone. cbn. apply Hfail.
    apply (Hall i c). apply list_lookup_insert_eq. by eapply lookup_lt_Some.
Qed.

(** The move that stores the new clock in [data->clk] and leaves. *)
Lemma move_store c k' :
  t = at_registered c → IS_ERR c = false →
  invariant (log ++ [call_mutex_unlock])
    {| shared := set_lock false (set_clk c d); world := k';
       threads := <[i:=returned c]> ts |}.
Proof.
  intros Ht Hok.
  assert (Hcs : in_cs t = true) by (by rewrite Ht).
  pose proof (inv_thread _ _ Hinv i _ Hi) as Hth. rewrite Ht in Hth.
  destruct Hth as [Hnull Hnz]. cbn in Hnull.
  destruct (move_mutex (returned c) (set_lock false (set_clk c d)))
    as [Hlock Hmutex]; [done|done|congruence|].
  split; cbn.
  - exact Hlock.
  - exact Hmutex.
  - intros j tj [[-> ->]|[Hne Hj]]%lookup_insert_cases; [cbn; auto|].
    pose proof (inv_thread _ _ Hinv j tj Hj) as Htj. cbn in Htj.
    pose proof (others_outside j tj Hcs Hne Hj) as Hout.
    destruct tj; cbn in *; try done.
    intros Hr. destruct (Htj Hr). congruence.
  - apply once_app; [exact (inv_once _ _ Hinv)|done].
  - intros Hc. destruct (Hnz Hok). exact Hc.
Qed.

End Moves.

Section Schedules.
Variable of_get_named_gpio_flags :
  device_node → string → Z → kernel → Z * Z.
Variable of_clk_get_parent_name :
  device_node → Z → kernel → option string.

(** The lookup answers a line number or a negative errno. *)
Hypothesis lookup_errno :
  ∀ np prop index k, - MAX_ERRNO ≤ (of_get_named_gpio_flags np prop index k).1.

Local Abbreviation step' := (step of_get_named_gpio_flags of_clk_get_parent_name).
Local Abbreviation sys_step' := (sys_step of_get_named_gpio_flags of_clk_get_parent_name).
Local Abbreviation run' := (run of_get_named_gpio_flags of_clk_get_parent_name).

Lemma invariant_nil log s : invariant log s → invariant (log ++ []) s.
Proof. by rewrite app_nil_r. Qed.

Lemma step_invariant log d k ts i t t' d' k' :
  invariant log {| shared := d; world := k; threads := ts |} →
  ts !! i = Some t →
  step' t d k = Some (t', d', k') →
  ∃ new,
    calls k' = calls k ++ new
    ∧ invariant (log ++ new)
        {| shared := d'; world := k'; threads := <[i:=t']> ts |}.
Proof.
  intros Hinv Hi Hstep.
  pose proof (inv_thread _ _ Hinv i t Hi) as Hok. cbn in Hok.
  destruct t as [| | | |gpio|gpio gpio_flags|c|r];
    cbn [step] in Hstep; cbn in Hok.
  - (* mutex_lock *)
    destruct (lock d) eqn:Hl; [done|]. injection Hstep as <- <- <-.
    exists [call_mutex_lock]. split; [done|].
    by apply (move_quiet log d k ts i at_lock); auto.
  - (* if (data->clk) *)
    pose proof (inv_lock _ _ Hinv i _ Hi eq_refl) as Hl. cbn in Hl.
    destruct (truthy (clk d)) eqn:Hc; injection Hstep as <- <- <-.
    + exists [call_mutex_unlock]. split; [done|].
      apply (move_quiet log d k ts i at_check); try done.
      by apply truthy_true.
    + exists []. split; [by rewrite app_nil_r|].
      apply (move_quiet log d k ts i at_check); try done; [by left|].
      by apply truthy_false.
  - (* return data->clk *)
    injection Hstep as <- <- <-.
    exists []. split; [by rewrite app_nil_r|].
    apply (move_quiet log d k ts i at_return_cached); try done. by left.
  - (* of_get_named_gpio_flags *)
    pose proof (inv_lock _ _ Hinv i _ Hi eq_refl) as Hl. cbn in Hl.
    pose proof (lookup_errno (node d) "enable-gpios" 0 k) as Herrno.
    destruct (of_get_named_gpio_flags _ _ _ _) as [gp fl]. cbn [fst] in Herrno.
    cbv beta iota in Hstep.
    destruct (gp <? 0) eqn:Hlt; rewrite ?Hlt in Hstep;
      injection Hstep as <- <- <-;
      [apply Z.ltb_lt in Hlt|apply Z.ltb_ge in Hlt].
    + eexists [_; call_mutex_unlock]. split; [cbn; by rewrite <- app_assoc|].
      apply (move_quiet log d k ts i at_lookup); try done.
    + eexists [_]. split; [done|].
      apply (move_quiet log d k ts i at_lookup); try done. by left.
  - (* return ERR_PTR(gpio) *)
    injection Hstep as <- <- <-.
    exists (if negb (gpio =? - EPROBE_DEFER)
            then [msg_lookup (name (node d))] else []).
    split; [destruct (negb _); [done|by rewrite app_nil_r]|].
    apply (move_quiet log d k ts i (at_lookup_failed gpio)); try done.
    + by left.
    + cbn. intros Hr. destruct (PTR_ERR_ERR_PTR gpio Hok). congruence.
    + by destruct (negb _).
  - (* clk_register_gpio *)
    pose proof (construct_log (name (node d))
                  (of_clk_get_parent_name (node d) 0 k) gpio
                  (truthy (Z.land gpio_flags OF_GPIO_ACTIVE_LOW))
                  (logged [call_of_clk_get_parent_name (name (node d)) 0] k))
      as (new & Hlog & Honce & Hfail & Hnz).
    destruct (clk_register_gpio _ _ _ _ _ _ _) as [c k2].
    cbn [fst snd] in *. cbv beta iota zeta in Hstep. injection Hstep as <- <- <-.
    exists (call_of_clk_get_parent_name (name (node d)) 0 :: new).
    split; [rewrite Hlog; cbn; by rewrite <- app_assoc|].
    by apply (move_register log d k ts i (at_register gpio gpio_flags)).
  - (* if (IS_ERR(clk)) *)
    destruct (IS_ERR c) eqn:Hc; injection Hstep as <- <- <-;
      (exists [call_mutex_unlock]; split; [done|]).
    + apply (move_quiet log d k ts i (at_registered c)); try done;
        cbn; intros; congruence.
    + by apply (move_store log d k ts i (at_registered c)).
  - done.
Qed.

Lemma sys_step_invariant log s i :
  invariant log s →
  ∃ new,
    calls (world (sys_step' i s)) = calls (world s) ++ new
    ∧ invariant (log ++ new) (sys_step' i s).
Proof.
  intros Hinv. unfold sys_step. destruct s as [d k ts]. cbn.
  destruct (ts !! i) as [t|] eqn:Hi;
    [|exists []; split; [by rewrite app_nil_r|by apply invariant_nil]].
  destruct (step' t d k) as [[[t' d'] k']|] eqn:Hstep;
    [|exists []; split; [by rewrite app_nil_r|by apply invariant_nil]].
  by apply (step_invariant log d k ts i t).
Qed.

Lemma run_invariant schedule log s :
  invariant log s →
  ∃ new,
    calls (world (run' schedule s)) = calls (world s) ++ new
    ∧ invariant (log ++ new) (run' schedule s).
Proof.
  revert log s. induction schedule as [|i schedule IH]; intros log s Hinv.
  - exists []. split; [by rewrite app_nil_r|by apply invariant_nil].
  - destruct (sys_step_invariant log s i Hinv) as (new1 & Hlog1 & Hinv1).
    destruct (IH _ _ Hinv1) as (new2 & Hlog2 & Hinv2).
    exists (new1 ++ new2). cbn [run].
    split; [by rewrite Hlog2, Hlog1, app_assoc|by rewrite app_assoc].
Qed.

Lemma callers_invariant n np k : invariant [] (callers n np k).
Proof.
  split; cbn.
  - intros i t [-> _]%lookup_replicate. done.
  - intros i j ti tj [-> _]%lookup_replicate. done.
  - intros i t [-> _]%lookup_replicate. done.
  - done.
  - done.
Qed.

End Schedules.

Lemma dt_lookup_errno np prop index k :
  - MAX_ERRNO ≤ (dt_get_named_gpio_flags np prop index k).1.
Proof.
  unfold dt_get_named_gpio_flags.
  destruct (properties np !! prop) as [[|line [|flags [|]]]|];
    try (by vm_compute).
  destruct (negb (index =? 0)); [by vm_compute|].
  destruct (Z.ltb_spec line 0); [by vm_compute|].
  destruct (bool_decide _); [|by vm_compute].
  cbn. unfold MAX_ERRNO. lia.
Qed.

Lemma count_app f a b : count f (a ++ b) = (count f a + count f b)%nat.
Proof. unfold count. by rewrite List.filter_app, length_app. Qed.

Lemma count_registered_register log :
  (count is_registered log ≤ count is_register log)%nat.
Proof.
  unfold count. induction log as [|c log IH]; [done|].
  cbn [List.filter]. destruct c; cbn [is_registered is_register]; try exact IH.
  destruct (negb _); cbn [length]; lia.
Qed.

Lemma total_pending_insert ts i t t' :
  ts !! i = Some t →
  (total_pending (<[i:=t']> ts) + pending t = total_pending ts + pending t')%nat.
Proof.
  unfold total_pending. revert i. induction ts as [|t0 ts IH]; intros [|i] Hi;
    try done; cbn in *.
  - injection Hi as ->. lia.
  - rewrite <- !Nat.add_assoc. f_equal. exact (IH i Hi).
Qed.

(** One call of [clk_register_gpio] in the books: one line request, at
    most one registration, and exactly one outcome, a registered clock
    or a failed step. *)
Lemma construct_counts dev nm parent flags g al k :
  let r := clk_register_gpio dev nm parent flags g al k in
  ∃ new,
    calls r.2 = calls k ++ new
    ∧ count is_request new = 1%nat
    ∧ (count is_register new ≤ 1)%nat
    ∧ (count is_registered new + count is_failed new = 1)%nat
    ∧ (IS_ERR r.1 = false → count is_registered new = 1%nat).
Proof.
  intros r. subst r.
  pose proof (clk_register_gpio_paths dev nm parent flags g al k) as P.
  destruct (clk_register_gpio dev nm parent flags g al k) as [c k'].
  cbn [fst snd] in *.
  destruct P as [err Herr _ He Hlog| _ He Hlog|p Hp He Hlog
                |p Hp Hnz Hok Hlog _ _ _ _];
    eexists; (split; [exact Hlog|]); unfold count, msg_request, msg_alloc;
    destruct (truthy dev);
    cbn [app List.filter is_request is_register is_registered is_failed];
    rewrite ?(proj2 (truthy_true err) Herr), ?(proj2 (truthy_true p) Hp),
      ?He, ?Hok;
    change (truthy 0) with false; change (truthy NULL) with false;
    cbn [negb List.filter length Nat.add];
    repeat split; intros; (congruence || lia).
Qed.

Section Books.
Variable of_get_named_gpio_flags :
  device_node → string → Z → kernel → Z * Z.
Variable of_clk_get_parent_name :
  device_node → Z → kernel → option string.

Local Abbreviation step' := (step of_get_named_gpio_flags of_clk_get_parent_name).
Local Abbreviation sys_step' := (sys_step of_get_named_gpio_flags of_clk_get_parent_name).
Local Abbreviation run' := (run of_get_named_gpio_flags of_clk_get_parent_name).

(** The books after caller [i] moved from [t] to [t'] with the calls
    [new]. *)
Lemma accounting_move log d k ts i t t' d' k' new :
  accounting log {| shared := d; world := k; threads := ts |} →
  ts !! i = Some t →
  (count is_request new + pending t' ≤ pending t)%nat →
  (count is_register new ≤ count is_request new)%nat →
  count is_request new = (count is_registered new + count is_failed new)%nat →
  (clk d' ≠ NULL →
   clk d ≠ NULL ∨ ∃ c, t = at_registered c ∧ IS_ERR c = false) →
  (∀ c, t' = at_registered c → IS_ERR c = false →
     (1 ≤ count is_registered new)%nat) →
  accounting (log ++ new)
    {| shared := d'; world := k'; threads := <[i:=t']> ts |}.
Proof.
  intros [Hreq Hreg Hcall Hcached Hpend] Hi Hp Hr Ha Hclk Hnew.
  cbn [shared world threads] in *.
  pose proof (total_pending_insert ts i t t' Hi) as Hins.
  split; cbn [shared world threads]; rewrite ?count_app.
  - lia.
  - lia.
  - rewrite length_insert. lia.
  - intros Hc. destruct (Hclk Hc) as [Hd|(c & -> & Hok)].
    + specialize (Hcached Hd). lia.
    + specialize (Hpend i c Hi Hok). lia.
  - intros j c Hj Hok. destruct (decide (j = i)) as [->|Hne].
    + rewrite list_lookup_insert_eq in Hj by (by eapply lookup_lt_Some).
      injection Hj as ->. specialize (Hnew c eq_refl Hok). lia.
    + rewrite list_lookup_insert_ne in Hj by done.
      specialize (Hpend j c Hj Hok). lia.
Qed.

Lemma step_accounting log d k ts i t t' d' k' :
  accounting log {| shared := d; world := k; threads := ts |} →
  ts !! i = Some t →
  step' t d k = Some (t', d', k') →
  ∃ new,
    calls k' = calls k ++ new
    ∧ accounting (log ++ new)
        {| shared := d'; world := k'; threads := <[i:=t']> ts |}.
Proof.
  intros Hacc Hi Hstep.
  destruct t as [| | | |gpio|gpio gpio_flags|c|r]; cbn [step] in Hstep.
  - destruct (lock d) eqn:Hl; [done|]. injection Hstep as <- <- <-.
    exists [call_mutex_lock]. split; [done|].
    apply (accounting_move log d k ts i at_lock); try done; cbn; auto.
  - destruct (truthy (clk d)) eqn:Hc; injection Hstep as <- <- <-.
    + exists [call_mutex_unlock]. split; [done|].
      apply (accounting_move log d k ts i at_check); try done; cbn; auto.
    + exists []. split; [by rewrite app_nil_r|].
      apply (accounting_move log d k ts i at_check); try done; cbn; auto.
  - injection Hstep as <- <- <-.
    exists []. split; [by rewrite app_nil_r|].
    apply (accounting_move log d k ts i at_return_cached); try done; cbn; auto.
  - destruct (of_get_named_gpio_flags _ _ _ _) as [gp fl].
    cbv beta iota in Hstep.
    destruct (gp <? 0); injection Hstep as <- <- <-.
    + eexists [_; call_mutex_unlock]. split; [cbn; by rewrite <- app_assoc|].
      apply (accounting_move log d k ts i at_lookup); try done; cbn; auto.
    + eexists [_]. split; [done|].
      apply (accounting_move log d k ts i at_lookup); try done; cbn; auto.
  - injection Hstep as <- <- <-.
    exists (if negb (gpio =? - EPROBE_DEFER)
            then [msg_lookup (name (node d))] else []).
    split; [destruct (negb (gpio =? - EPROBE_DEFER)); [done|by rewrite app_nil_r]|].
    apply (accounting_move log d k ts i (at_lookup_failed gpio)); try done;
      unfold msg_lookup; destruct (negb (gpio =? - EPROBE_DEFER)); cbn; auto.
  - pose proof (construct_counts NULL (name (node d))
                  (of_clk_get_parent_name (node d) 0 k) 0 gpio
                  (truthy (Z.land gpio_flags OF_GPIO_ACTIVE_LOW))
                  (logged [call_of_clk_get_parent_name (name (node d)) 0] k))
      as (new & Hlog & Hreq & Hreg & Hout & Hok).
    destruct (clk_register_gpio _ _ _ _ _ _ _) as [c k2].
    cbn [fst snd] in *. cbv beta iota zeta in Hstep. injection Hstep as <- <- <-.
    exists (call_of_clk_get_parent_name (name (node d)) 0 :: new).
    split; [rewrite Hlog; cbn; by rewrite <- app_assoc|].
    apply (accounting_move log d k ts i (at_register gpio gpio_flags));
      try done; unfold count in *; cbn [List.filter is_request is_register
        is_registered is_failed pending]; try lia; auto.
    intros c' [= <-] Hc. rewrite (Hok Hc). lia.
  - destruct (IS_ERR c) eqn:Hc; injection Hstep as <- <- <-;
      (exists [call_mutex_unlock]; split; [done|]);
      apply (accounting_move log d k ts i (at_registered c)); try done;
      cbn; eauto.
  - done.
Qed.

Lemma sys_step_accounting log s i :
  accounting log s →
  ∃ new,
    calls (world (sys_step' i s)) = calls (world s) ++ new
    ∧ accounting (log ++ new) (sys_step' i s).
Proof.
  intros Hacc. unfold sys_step. destruct s as [d k ts]. cbn.
  destruct (ts !! i) as [t|] eqn:Hi;
    [|exists []; by rewrite !app_nil_r].
  destruct (step' t d k) as [[[t' d'] k']|] eqn:Hstep;
    [|exists []; by rewrite !app_nil_r].
  by apply (step_accounting log d k ts i t).
Qed.

Lemma run_accounting schedule log s :
  accounting log s →
  ∃ new,
    calls (world (run' schedule s)) = calls (world s) ++ new
    ∧ accounting (log ++ new) (run' schedule s).
Proof.
  revert log s. induction schedule as [|i schedule IH]; intros log s Hacc.
  - exists []. by rewrite !app_nil_r.
  - destruct (sys_step_accounting log s i Hacc) as (new1 & Hlog1 & Hacc1).
    destruct (IH _ _ Hacc1) as (new2 & Hlog2 & Hacc2).
    exists (new1 ++ new2). cbn [run].
    split; [by rewrite Hlog2, Hlog1, app_assoc|by rewrite app_assoc].
Qed.

End Books.

Lemma callers_accounting n np k : accounting [] (callers n np k).
Proof.
  split; cbn; try done.
  - rewrite length_replicate. unfold total_pending.
    induction n as [|n IH]; [done|].
    cbn [replicate fmap list_fmap sum_list sum_list_with pending id]. lia.
  - intros i c [? _]%lookup_replicate. done.
Qed.

Lemma threads_length_run lookup parent schedule s :
  length (threads (run lookup parent schedule s)) = length (threads s).
Proof.
  revert s. induction schedule as [|i schedule IH]; intros s; [done|].
  cbn [run]. rewrite IH. unfold sys_step.
  destruct (threads s !! i) as [t|]; [|done].
  destruct (step lookup parent t (shared s) (world s)) as [[[t' d'] k']|];
    [|done].
  cbn. by rewrite length_insert.
Qed.

(** C9 (as the code has it). However the moves of any number of
    concurrent callers of one provider interleave: two callers are never
    between [mutex_lock] and [mutex_unlock] together; every caller that
    returned a clock returned the same one, the one in [data->clk]; at
    most one registration in the whole log returned a clock, and after
    it the log has no line request and no registration.  The line
    requests are all accounted for: each ended in that one registered
    clock or in a failed step (request, allocation or registration) of
    its own call, nothing is registered without a request, and no
    caller requests twice; so there is at most one line request more
    than there are failed steps.  When some caller returned a clock,
    one registration returned it; and in a run without a failed step
    that is the only line request and the only registration. *)
Theorem concurrent_callers_agree
    (of_get_named_gpio_flags : device_node → string → Z → kernel → Z * Z)
    (of_clk_get_parent_name : device_node → Z → kernel → option string)
    (n : nat) (np : device_node) (k : kernel) (schedule : list nat) :
  (∀ np prop index k,
     - MAX_ERRNO ≤ (of_get_named_gpio_flags np prop index k).1) →
  let s := run of_get_named_gpio_flags of_clk_get_parent_name schedule
             (callers n np k) in
  let log := calls_since k (world s) in
  (∀ i j ti tj, threads s !! i = Some ti → threads s !! j = Some tj →
     in_cs ti = true → in_cs tj = true → i = j)
  ∧ (∀ i j r1 r2,
       threads s !! i = Some (returned r1) →
       threads s !! j = Some (returned r2) →
       IS_ERR r1 = false → IS_ERR r2 = false →
       r1 = r2 ∧ r1 = clk (shared s))
  ∧ (length (List.filter is_registered log) ≤ 1)%nat
  ∧ registered_once log = true
  ∧ count is_request log = (count is_registered log + count is_failed log)%nat
  ∧ (count is_register log ≤ count is_request log)%nat
  ∧ (count is_request log + total_pending (threads s) ≤ n)%nat
  ∧ (count is_request log ≤ 1 + count is_failed log)%nat
  ∧ (count is_failed log = 0%nat →
     (count is_request log ≤ 1)%nat ∧ (count is_register log ≤ 1)%nat)
  ∧ (∀ i r, threads s !! i = Some (returned r) → IS_ERR r = false →
       count is_registered log = 1%nat
       ∧ (count is_failed log = 0%nat →
          count is_request log = 1%nat ∧ count is_register log = 1%nat)).
Proof.
  intros Herrno s log.
  destruct (run_invariant of_get_named_gpio_flags of_clk_get_parent_name
              Herrno schedule [] (callers n np k) (callers_invariant n np k))
    as (new & Hlog & Hinv).
  destruct (run_accounting of_get_named_gpio_flags of_clk_get_parent_name
              schedule [] (callers n np k) (callers_accounting n np k))
    as (new' & Hlog' & Hacc).
  fold s in Hlog, Hinv, Hlog', Hacc. cbn [app] in Hinv, Hacc.
  assert (log = new) as Hnew by (by apply calls_since_app).
  assert (new' = new) as ->.
  { rewrite Hlog in Hlog'. by apply app_inv_head in Hlog'. }
  rewrite Hnew. clear Hnew log.
  pose proof (once_count new (inv_once _ _ Hinv)) as Hone.
  fold (count is_registered new) in Hone.
  pose proof (acc_requests _ _ Hacc) as Hreq.
  pose proof (acc_registers _ _ Hacc) as Hreg.
  pose proof (acc_callers _ _ Hacc) as Hcall.
  pose proof (count_registered_register new) as Hle.
  assert (Hn : length (threads s) = n).
  { subst s. rewrite threads_length_run. cbn. apply length_replicate. }
  rewrite Hn in Hcall.
  split; [exact (inv_mutex _ _ Hinv)|]. split.
  { intros i j r1 r2 Hi Hj H1 H2.
    destruct (inv_thread _ _ Hinv i _ Hi H1) as [-> _].
    destruct (inv_thread _ _ Hinv j _ Hj H2) as [-> _]. done. }
  split; [exact Hone|]. split; [exact (inv_once _ _ Hinv)|].
  split; [exact Hreq|]. split; [exact Hreg|]. split; [exact Hcall|].
  split; [lia|]. split; [lia|].
  intros i r Hi Hok.
  destruct (inv_thread _ _ Hinv i _ Hi Hok) as [-> Hnz].
  pose proof (acc_cached _ _ Hacc Hnz). lia.
Qed.

Lemma concurrent_callers_agree_witness :
  let s := run dt_get_named_gpio_flags dt_clk_get_parent_name
             [0; 1; 0; 1; 0; 0; 0; 1; 1; 1]%nat
             (callers 2 Board.osc_node Board.boot) in
  let log := calls_since Board.boot (world s) in
  threads s = [returned 32; returned 32]
  ∧ (length (List.filter is_registered log) ≤ 1)%nat
  ∧ count is_request log = 1%nat ∧ count is_register log = 1%nat.
Proof.
  intros s log.
  destruct (concurrent_callers_agree dt_get_named_gpio_flags
              dt_clk_get_parent_name 2 Board.osc_node Board.boot
              [0; 1; 0; 1; 0; 0; 0; 1; 1; 1]%nat dt_lookup_errno)
    as (_ & _ & Hone & _ & _ & _ & _ & _ & _ & Hret).
  destruct (Hret 0%nat 32 eq_refl eq_refl) as [_ Hexact].
  split; [reflexivity|]. split; [exact Hone|]. exact (Hexact eq_refl).
Defined.

(** C9 (as stated) fails: two callers of the "osc" provider on a board
    where the name is taken.  The first takes the mutex, the second
    waits; each in turn requests line 42 and tries to register, and
    fails.  The log has two line requests and two registrations. *)
Lemma failed_callers_request_again :
  let k := Board.boot_osc_taken in
  let s := run dt_get_named_gpio_flags dt_clk_get_parent_name
             [0; 1; 0; 0; 0; 0; 1; 1; 1; 1; 1]%nat
             (callers 2 Board.osc_node k) in
  let log := calls_since k (world s) in
  threads s = [returned (ERR_PTR (- EEXIST)); returned (ERR_PTR (- EEXIST))]
  ∧ length (List.filter is_request log) = 2%nat
  ∧ length (List.filter is_register log) = 2%nat
  ∧ ¬ (length (List.filter is_request log) ≤ 1
       ∧ length (List.filter is_register log) ≤ 1)%nat.
Proof. vm_compute. repeat split. intros [H _]. lia. Qed.

(** * Further properties *)

Lemma gate_do_eq hw c k :
  gate_do hw c k =
    (tt, set_gpios
           (alter (drive (if c is do_enable then negb (active_low hw)
                          else active_low hw)) (gpio hw))
           (logged [call_gpio_set_value (gpio hw)
                      (Z.b2z (if c is do_enable then negb (active_low hw)
                              else active_low hw))] k)).
Proof.
  destruct c; cbn [gate_do enable disable clk_gpio_ops]; kern_unfold.
  - rewrite clk_gpio_enable_eq. unfold active_level. by destruct (active_low hw).
  - rewrite clk_gpio_disable_eq. unfold active_level. by destruct (active_low hw).
Qed.

Lemma gate_run_frame hw cs k : gate_frame hw k (gate_run hw cs k).2.
Proof.
  unfold gate_frame. revert k. induction cs as [|c cs IH]; intros k; cbn [gate_run].
  - by cbn.
  - unfold mbind, kern_bind. rewrite gate_do_eq.
    destruct (IH (set_gpios
           (alter (drive (if c is do_enable then negb (active_low hw)
                          else active_low hw)) (gpio hw))
           (logged [call_gpio_set_value (gpio hw)
                      (Z.b2z (if c is do_enable then negb (active_low hw)
                              else active_low hw))] k)))
      as (Hg & Ho & Hh & Hc & Hm & Hd).
    cbn zeta in *. repeat split; try (etrans; [eassumption|done]).
    + intros g Hne. rewrite (Hg g Hne). cbn. by rewrite lookup_alter_ne.
    + rewrite Ho. cbn. rewrite lookup_alter_eq. by destruct (gpios k !! gpio hw).
Qed.

(** X1. The three gate operations, and any sequence of enables and
    disables, leave every other GPIO line as it was, leave the owner of
    the gate's own line as it was, and touch neither the heap, nor the
    registered clocks, nor the allocator, nor the device-managed
    resources: all they may change is the level of the one line (and
    the call log). *)
Theorem gate_operations_frame (hw : clk_gpio) (k : kernel)
    (cs : list gate_call) :
  gate_frame hw k (clk_gpio_enable hw k).2
  ∧ gate_frame hw k (clk_gpio_disable hw k).2
  ∧ gate_frame hw k (clk_gpio_is_enabled hw k).2
  ∧ gate_frame hw k (gate_run hw cs k).2.
Proof.
  unfold gate_frame. split; [|split; [|split]].
  - rewrite clk_gpio_enable_eq. cbn. repeat split; try done.
    + intros g Hne. by rewrite lookup_alter_ne.
    + rewrite lookup_alter_eq. by destruct (gpios k !! gpio hw).
  - rewrite clk_gpio_disable_eq. cbn. repeat split; try done.
    + intros g Hne. by rewrite lookup_alter_ne.
    + rewrite lookup_alter_eq. by destruct (gpios k !! gpio hw).
  - rewrite clk_gpio_is_enabled_eq. by cbn.
  - apply gate_run_frame.
Qed.

(** X2. On a line that exists, after any sequence of enables and
    disables the gate reads as enabled exactly when the last call was an
    enable, whatever came before and whatever the polarity: the line is
    at the active level after an enable and at the inactive level after
    a disable, and no other line has changed. *)
Theorem last_call_decides (hw : clk_gpio) (cs : list gate_call) (c : gate_call)
    (k : kernel) :
  is_Some (gpios k !! gpio hw) →
  let k' := (gate_run hw (cs ++ [c]) k).2 in
  truthy (clk_gpio_is_enabled hw k').1 = (if c is do_enable then true else false)
  ∧ gpio_level k' (gpio hw)
    = (if c is do_enable then negb (active_low hw) else active_low hw)
  ∧ (∀ g, g ≠ gpio hw → gpios k' !! g = gpios k !! g).
Proof.
  intros Hline k'. subst k'.
  split; [|split; [|apply (gate_run_frame hw (cs ++ [c]) k)]].
  all: revert k Hline; induction cs as [|c0 cs IH]; intros k Hline.
  all: cbn [app gate_run]; unfold mbind, kern_bind; rewrite gate_do_eq.
  all: try (apply IH; cbn; rewrite lookup_alter_eq; by destruct Hline as [? ->]).
  - cbn [mret kern_ret snd]. rewrite clk_gpio_is_enabled_eq. cbn [fst].
    rewrite gpio_level_driven by done. by destruct c, (active_low hw).
  - cbn [mret kern_ret snd]. by rewrite gpio_level_driven.
Qed.

Lemma last_call_decides_witness :
  let hw := {| hw_init := gpio_init_data "osc" None 0; gpio := 42;
               active_low := true |} in
  let k' := (gate_run hw [do_enable; do_disable; do_disable; do_enable]
               Board.boot).2 in
  truthy (clk_gpio_is_enabled hw k').1 = true
  ∧ gpio_level k' 42 = false.
Proof.
  intros hw k'.
  assert (Hline : is_Some (gpios Board.boot !! gpio hw)) by (by eexists).
  destruct (last_call_decides hw [do_enable; do_disable; do_disable] do_enable
              Board.boot Hline) as (Hen & Hlevel & _).
  split; [exact Hen|exact Hlevel].
Defined.

Ltac register_gpio_unfold :=
  unfold clk_register_gpio, clk_register_gpio_err, pr_err, store,
    devm_gpio_request_one, gpio_request_one, gpiolib_request,
    devm_kzalloc, kzalloc, slab_alloc, clk_register, clk_core_register,
    kfree, gpio_free;
  kern_unfold.

Ltac register_gpio_simpl :=
  repeat (progress (
    cbn -[Z.land Z.lor name_taken ERR_PTR IS_ERR];
    change (- EBUSY =? 0) with false;
    change (- EINVAL =? 0) with false;
    change (truthy (- EBUSY)) with true;
    change (truthy (- EINVAL)) with true;
    change (IS_ERR (ERR_PTR (- ENOMEM))) with true;
    change (IS_ERR (ERR_PTR (- EEXIST))) with true;
    rewrite ?lookup_alter_eq, ?lookup_insert_eq)).

Lemma init_level (al : bool) :
  truthy (Z.land (if al then GPIOF_OUT_INIT_LOW else GPIOF_OUT_INIT_HIGH)
                 GPIOF_INIT_HIGH) = negb al.
Proof. by destruct al. Qed.

Lemma release_requested (m : gmap Z gpio_line) g nm lvl :
  alter release g (<[g := {| line_owner := Some nm; line_level := lvl |}]> m)
  = <[g := {| line_owner := None; line_level := lvl |}]> m.
Proof. by rewrite alter_insert_eq. Qed.

Lemma free_stored (h : gmap Z clk_gpio) p f x :
  h !! p = None → delete p (alter f p (<[p := x]> h)) = h.
Proof.
  intros Hp. apply map_eq. intros i. destruct (decide (i = p)) as [->|Hne].
  - by rewrite lookup_delete_eq.
  - by rewrite lookup_delete_ne, lookup_alter_ne, lookup_insert_ne.
Qed.

Lemma register_gpio_failure_state
    (nm : string) (parent : option string) (flags g : Z) (al : bool)
    (k : kernel) (l : gpio_line) :
  gpios k !! g = Some l → line_owner l = None →
  (∀ p, p ∈ kmem k → heap k !! Z.pos p = None ∧ IS_ERR (Z.pos p) = false) →
  let r := clk_register_gpio NULL nm parent flags g al k in
  IS_ERR r.1 = true →
  heap r.2 = heap k ∧ kmem r.2 = kmem k ∧ clocks r.2 = clocks k
  ∧ devm r.2 = devm k
  ∧ gpios r.2 = <[g := {| line_owner := None; line_level := negb al |}]> (gpios k).
Proof.
  intros Hl Ho Hmem r. subst r. register_gpio_unfold.
  change (truthy NULL) with false. cbn [negb]. rewrite Hl, Ho.
  register_gpio_simpl.
  destruct (kmem k) as [|p [|q rest]] eqn:Hk; register_gpio_simpl.
  - intros _. by rewrite release_requested, init_level.
  - intros _. rewrite release_requested, init_level.
    destruct (Hmem p) as [Hp _]; [apply list_elem_of_here|].
    by rewrite free_stored.
  - destruct (Hmem p) as [Hp _]; [apply list_elem_of_here|].
    destruct (Hmem q) as [_ Hq]; [apply list_elem_of_further, list_elem_of_here|].
    destruct (name_taken _ _); register_gpio_simpl.
    + intros _. rewrite release_requested, init_level. by rewrite free_stored.
    + rewrite Hq. register_gpio_simpl. congruence.
Qed.

(** X3. What [clk_register_gpio] returns is decided by the first step
    that fails, in the order request, allocation, registration: the
    error of the GPIO request when the line does not exist ([-EINVAL])
    or has an owner ([-EBUSY]), and then nothing else is attempted;
    [-ENOMEM] when the line is free but the allocator cannot serve both
    the record and the clock; [-EEXIST] when both are served but the
    name is registered already; and otherwise the new clock. *)
Theorem clk_register_gpio_result
    (dev : Z) (nm : string) (parent : option string) (flags g : Z)
    (al : bool) (k : kernel) :
  (clk_register_gpio dev nm parent flags g al k).1 =
    match gpios k !! g with
    | None => ERR_PTR (- EINVAL)
    | Some l =>
        match line_owner l, kmem k with
        | Some _, _ => ERR_PTR (- EBUSY)
        | None, ([] | [_]) => ERR_PTR (- ENOMEM)
        | None, _ :: q :: _ =>
            if name_taken (Some nm) (clocks k) then ERR_PTR (- EEXIST)
            else Z.pos q
        end
    end.
Proof.
  register_gpio_unfold.
  destruct (truthy dev); cbn [negb];
    (destruct (gpios k !! g) as [l|]; [destruct (line_owner l)|]);
    try reflexivity;
    register_gpio_simpl;
    (destruct (kmem k) as [|p [|q rest]]; register_gpio_simpl; try reflexivity);
    (destruct (name_taken _ _); register_gpio_simpl; try reflexivity);
    destruct (IS_ERR (Z.pos q)); reflexivity.
Qed.

(** X7. The state a successful unmanaged [clk_register_gpio] leaves
    (free line, two free addresses, name not taken): the line belongs
    to the clock's name and is at the active level; the record at the
    first address holds the line and the polarity, and no other object
    of the heap has changed; the clock at the second address carries
    the name, the gate operations, the record, [flags | CLK_IS_BASIC]
    and the parent; both addresses are gone from the allocator; nothing
    is device-managed and nothing was released.  (Nothing is said of
    the record's [hw.init]: it points to the automatic [init] of the
    function, which is gone once it has returned.) *)
Theorem unmanaged_success_state
    (nm : string) (parent : option string) (flags g : Z) (al : bool)
    (k : kernel) (l : gpio_line) (p q : positive) (rest : list positive) :
  gpios k !! g = Some l → line_owner l = None →
  kmem k = p :: q :: rest →
  name_taken (Some nm) (clocks k) = false →
  IS_ERR (Z.pos q) = false →
  let r := clk_register_gpio NULL nm parent flags g al k in
  r.1 = Z.pos q
  ∧ gpios r.2 = <[g := {| line_owner := Some nm; line_level := negb al |}]> (gpios k)
  ∧ (∃ hw, heap r.2 !! Z.pos p = Some hw ∧ gpio hw = g ∧ active_low hw = al)
  ∧ (∀ a, a ≠ Z.pos p → heap r.2 !! a = heap k !! a)
  ∧ clocks r.2 =
      <[Z.pos q := {| core_name := Some nm; core_ops := Some clk_gpio_ops_ref;
                      core_hw := Z.pos p;
                      core_flags := Z.lor flags CLK_IS_BASIC;
                      core_parent_names := parent;
                      core_num_parents := if parent is Some _ then 1 else 0 |}]>
        (clocks k)
  ∧ kmem r.2 = rest ∧ devm r.2 = devm k
  ∧ released (calls_since k r.2) = [].
Proof.
  intros Hl Ho Hk Hname Hq r. subst r.
  register_gpio_unfold.
  change (truthy NULL) with false. cbn [negb]. rewrite Hl, Ho.
  register_gpio_simpl. rewrite Hk. register_gpio_simpl.
  rewrite Hname. register_gpio_simpl. rewrite Hq. register_gpio_simpl.
  rewrite init_level, alter_insert_eq.
  split; [done|]. split; [done|]. split.
  { eexists. by repeat split. }
  split; [intros a Ha; by rewrite lookup_insert_ne|].
  repeat split; try done.
  erewrite calls_since_app by (cbn; rewrite <- !app_assoc; reflexivity).
  reflexivity.
Qed.

(** X4. Every registration [clk_register_gpio] makes describes the
    gate it was asked for: it is made for the caller's device, on a
    non-NULL record that a [kzalloc] of the same call returned, its
    result is what [clk_register_gpio] returns, and its init data carry
    the name, the gate operations ([clk_gpio_ops]) and the parent, with
    [num_parents] 1 when there is a parent and 0 when there is none. *)
Theorem registration_describes_gate
    (dev : Z) (nm : string) (parent : option string) (flags g : Z)
    (al : bool) (k : kernel) (d hw : Z) (init : clk_init_data) (ret : Z) :
  let r := clk_register_gpio dev nm parent flags g al k in
  call_clk_register d hw init ret ∈ calls_since k r.2 →
  d = dev ∧ hw ≠ NULL ∧ ret = r.1
  ∧ call_kzalloc dev hw ∈ calls_since k r.2
  ∧ init_name init = Some nm
  ∧ deref_ops <$> init_ops init = Some clk_gpio_ops
  ∧ init_parent_names init = parent
  ∧ init_num_parents init = (if parent is Some _ then 1 else 0)
  ∧ (init_num_parents init = 0 ↔ parent = None).
Proof.
  intros r Hin. subst r.
  destruct (clk_register_gpio_paths dev nm parent flags g al k)
    as [err _ _ _ Hlog| _ _ Hlog|p Hp _ Hlog|p Hp _ _ Hlog _ _ _ _];
    rewrite (calls_since_app _ _ _ Hlog) in Hin |- *;
    unfold msg_request, msg_alloc in Hin; destruct (truthy dev);
    repeat (apply elem_of_cons in Hin as [Hin|Hin];
            [try discriminate Hin|]);
    try (by apply elem_of_nil in Hin).
  all: injection Hin as -> -> -> ->.
  all: (repeat split; try done);
    try (apply list_elem_of_further, list_elem_of_here);
    cbn; destruct parent; done.
Qed.

Lemma register_gpio_busy
    (nm : string) (parent : option string) (flags g : Z) (al : bool)
    (k : kernel) (l : gpio_line) (owner : string) :
  gpios k !! g = Some l → line_owner l = Some owner →
  let r dev := clk_register_gpio dev nm parent flags g al k in
  (r NULL).1 = ERR_PTR (- EBUSY)
  ∧ calls_since k (r NULL).2 =
      [call_gpio_request_one NULL g (gpio_init_flags al) nm (- EBUSY);
       msg_request nm g; call_gpio_free g]
  ∧ gpios (r NULL).2 !! g
    = Some {| line_owner := None; line_level := line_level l |}
  ∧ (∀ g', g' ≠ g → gpios (r NULL).2 !! g' = gpios k !! g')
  ∧ (∀ dev, dev ≠ NULL →
       (r dev).1 = ERR_PTR (- EBUSY) ∧ gpios (r dev).2 = gpios k
       ∧ released (calls_since k (r dev).2) = []).
Proof.
  intros Hl Ho r. subst r. cbn beta.
  split; [|split; [|split; [|split]]].
  - register_gpio_unfold. change (truthy NULL) with false. cbn [negb].
    by rewrite Hl, Ho.
  - register_gpio_unfold. change (truthy NULL) with false. cbn [negb].
    rewrite Hl, Ho. register_gpio_simpl.
    erewrite calls_since_app by (cbn; rewrite <- !app_assoc; reflexivity).
    reflexivity.
  - register_gpio_unfold. change (truthy NULL) with false. cbn [negb].
    rewrite Hl, Ho. register_gpio_simpl. by rewrite Hl.
  - intros g' Hne. register_gpio_unfold. change (truthy NULL) with false.
    cbn [negb]. rewrite Hl, Ho. register_gpio_simpl. by rewrite lookup_alter_ne.
  - intros dev Hdev. apply truthy_true in Hdev.
    register_gpio_unfold. rewrite Hdev. cbn [negb]. rewrite Hl, Ho.
    register_gpio_simpl. do 2 (split; [done|]).
    erewrite calls_since_app by (cbn; rewrite <- !app_assoc; reflexivity).
    reflexivity.
Qed.

Lemma calls_logged cs k : calls (logged cs k) = calls k ++ cs.
Proof. reflexivity. Qed.

Lemma polarity_bit (fl : Z) :
  truthy (Z.land fl OF_GPIO_ACTIVE_LOW) = Z.testbit fl 0.
Proof.
  unfold OF_GPIO_ACTIVE_LOW, truthy.
  change 1 with (Z.ones 1). rewrite Z.land_ones by lia.
  change (2 ^ 1) with 2. rewrite <- Z.bit0_mod.
  by destruct (Z.testbit fl 0).
Qed.

Lemma filter_mutex_pairs f n :
  f call_mutex_lock = false → f call_mutex_unlock = false →
  List.filter f (mjoin (replicate n [call_mutex_lock; call_mutex_unlock])) = [].
Proof. intros Hl Hu. induction n as [|n IH]; [done|]. cbn. by rewrite Hl, Hu. Qed.

Lemma clk_register_gpio_no_mutex dev nm parent flags g al k :
  List.filter is_mutex
    (calls_since k (clk_register_gpio dev nm parent flags g al k).2) = [].
Proof.
  destruct (clk_register_gpio_paths dev nm parent flags g al k)
    as [err _ _ _ Hlog| _ _ Hlog|p _ _ Hlog|p _ _ _ Hlog _ _ _ _];
    rewrite (calls_since_app _ _ _ Hlog); by destruct (truthy dev).
Qed.

Section ProviderMore.
Variable of_get_named_gpio_flags :
  device_node → string → Z → kernel → Z * Z.
Variable of_clk_get_parent_name :
  device_node → Z → kernel → option string.
Variable clkspec : list Z.

Local Abbreviation get :=
  (of_clk_gpio_delayed_register_get
     of_get_named_gpio_flags of_clk_get_parent_name clkspec).
Local Abbreviation lookup_of' := (lookup_of of_get_named_gpio_flags).
Local Abbreviation lookup_call' := (lookup_call of_get_named_gpio_flags).
Local Abbreviation parent_of' :=
  (parent_of of_get_named_gpio_flags of_clk_get_parent_name).
Local Abbreviation construct_of' :=
  (construct_of of_get_named_gpio_flags of_clk_get_parent_name).

Implicit Types (data : clk_gpio_delayed_register_data) (k : kernel).

(** The state in which a provider call runs [clk_register_gpio]. *)
Local Abbreviation before_construct data k :=
  (logged [call_mutex_lock; lookup_call' data k; parent_call data] k).

Lemma construct_of_eq data k :
  construct_of' data k =
    clk_register_gpio NULL (name (node data)) (parent_of' data k) 0
      (lookup_of' data k).1 (Z.testbit (lookup_of' data k).2 0)
      (before_construct data k).
Proof. unfold construct_of. by rewrite polarity_bit. Qed.

(** What a provider call that registers leaves behind. *)
Lemma construct_of_registered data k :
  IS_ERR (construct_of' data k).1 = false →
  ∃ p,
    p ≠ NULL ∧ (construct_of' data k).1 ≠ NULL
    ∧ calls (construct_of' data k).2 = calls k ++
        [call_mutex_lock; lookup_call' data k; parent_call data;
         call_gpio_request_one NULL (lookup_of' data k).1
           (gpio_init_flags (Z.testbit (lookup_of' data k).2 0))
           (name (node data)) 0;
         call_kzalloc NULL p;
         call_clk_register NULL p
           (gpio_init_data (name (node data)) (parent_of' data k) 0)
           (construct_of' data k).1]
    ∧ gpio_level (construct_of' data k).2 (lookup_of' data k).1
      = negb (Z.testbit (lookup_of' data k).2 0)
    ∧ heap (construct_of' data k).2 !! p =
        Some {| hw_init := gpio_init_data (name (node data)) (parent_of' data k) 0;
                gpio := (lookup_of' data k).1;
                active_low := Z.testbit (lookup_of' data k).2 0 |}
    ∧ clocks (construct_of' data k).2 !! (construct_of' data k).1 =
        Some {| core_name := Some (name (node data));
                core_ops := Some clk_gpio_ops_ref;
                core_hw := p; core_flags := CLK_IS_BASIC;
                core_parent_names := parent_of' data k;
                core_num_parents := if parent_of' data k is Some _ then 1 else 0 |}.
Proof.
  rewrite construct_of_eq. intros Hok.
  destruct (clk_register_gpio_paths NULL (name (node data)) (parent_of' data k) 0
              (lookup_of' data k).1 (Z.testbit (lookup_of' data k).2 0)
              (before_construct data k))
    as [err _ _ He _| _ He _|p _ He _|p Hp Hnz _ Hlog _ Hlvl Hheap Hclk];
    try congruence.
  exists p. repeat split; try done.
  rewrite Hlog. cbn. by rewrite <- app_assoc.
Qed.

Lemma get_registered data k :
  lock data = false → clk data = NULL → 0 ≤ (lookup_of' data k).1 →
  IS_ERR (construct_of' data k).1 = false →
  get data k =
    Some ((construct_of' data k).1, set_clk (construct_of' data k).1 data,
          logged [call_mutex_unlock] (construct_of' data k).2).
Proof. intros Hl Hc Hpos Hok. rewrite get_construct by done. by rewrite Hok. Qed.

Lemma get_n_resolves data k n :
  lock data = false → clk data = NULL → 0 ≤ (lookup_of' data k).1 →
  IS_ERR (construct_of' data k).1 = false →
  let c := (construct_of' data k).1 in
  ∃ k',
    get_n get (S n) data k = Some (replicate (S n) c, set_clk c data, k')
    ∧ ∃ p, calls_since k k' =
        [call_mutex_lock; lookup_call' data k; parent_call data;
         call_gpio_request_one NULL (lookup_of' data k).1
           (gpio_init_flags (Z.testbit (lookup_of' data k).2 0))
           (name (node data)) 0;
         call_kzalloc NULL p;
         call_clk_register NULL p
           (gpio_init_data (name (node data)) (parent_of' data k) 0) c;
         call_mutex_unlock]
        ++ mjoin (replicate n [call_mutex_lock; call_mutex_unlock]).
Proof.
  intros Hl Hc Hpos Hok c. subst c.
  destruct (construct_of_registered data k Hok) as (p & _ & Hnz & Hlog & _).
  eexists. split.
  - cbn [get_n]. rewrite get_registered by done. cbn -[construct_of logged get_n].
    rewrite (get_n_cached of_get_named_gpio_flags of_clk_get_parent_name clkspec)
      by done.
    cbn -[construct_of logged]. rewrite logged_logged. reflexivity.
  - exists p. apply calls_since_app.
    rewrite calls_logged, Hlog, <- !app_assoc. reflexivity.
Qed.

Lemma clk_register_gpio_extends dev nm parent flags g al k0 :
  let r := clk_register_gpio dev nm parent flags g al k0 in
  calls r.2 = calls k0 ++ calls_since k0 r.2.
Proof.
  intros r. subst r.
  destruct (clk_register_gpio_paths dev nm parent flags g al k0)
    as [err _ _ _ Hlog| _ _ Hlog|p _ _ Hlog|p _ _ _ Hlog _ _ _ _];
    by rewrite (calls_since_app _ _ _ Hlog).
Qed.

(** X10. Every path through the provider unlocks.  A call that finds
    the mutex free returns (cached, failed lookup, failed or successful
    construction alike) with the mutex free again and the node as it
    was, and its log has exactly one [mutex_lock] followed by one
    [mutex_unlock]. *)
Theorem every_path_unlocks data k :
  lock data = false →
  ∃ r data' k',
    of_clk_gpio_delayed_register_get
      of_get_named_gpio_flags of_clk_get_parent_name clkspec data k
    = Some (r, data', k')
    ∧ lock data' = false ∧ node data' = node data
    ∧ List.filter is_mutex (calls_since k k')
      = [call_mutex_lock; call_mutex_unlock].
Proof.
  intros Hl.
  destruct (Z.eq_dec (clk data) NULL) as [Hc|Hc].
  - destruct (Z.lt_ge_cases (lookup_of' data k).1 0) as [Hneg|Hpos].
    + eexists _, _, _. split; [by apply get_lookup_failed|].
      rewrite calls_since_logged. do 2 (split; [done|]).
      unfold lookup_call, msg_lookup. by destruct (_ =? _).
    + eexists _, _, _. split; [by apply get_construct|].
      split; [by destruct (IS_ERR _)|]. split; [by destruct (IS_ERR _)|].
      unfold construct_of.
      match goal with |- context [clk_register_gpio ?d ?n ?p ?f ?g ?a ?k0] =>
        pose proof (clk_register_gpio_extends d n p f g a k0) as Hext;
        pose proof (clk_register_gpio_no_mutex d n p f g a k0) as Hno;
        destruct (clk_register_gpio d n p f g a k0) as [c k3] end.
      cbn [fst snd] in *.
      erewrite calls_since_app
        by (rewrite calls_logged, Hext, calls_logged, <- !app_assoc; reflexivity).
      rewrite !List.filter_app, Hno. by unfold lookup_call, parent_call.
  - eexists _, _, _. split; [by apply get_cached|].
    by rewrite calls_since_logged.
Qed.

End ProviderMore.

(** *** The flags of a registration *)

(** On a free line, with two addresses to hand out and the name not
    taken, [clk_register_gpio] registers the clock at the second
    address. *)
Lemma register_gpio_succeeds dev nm parent flags g al k l p q rest :
  gpios k !! g = Some l → line_owner l = None →
  kmem k = p :: q :: rest →
  name_taken (Some nm) (clocks k) = false →
  (clk_register_gpio dev nm parent flags g al k).1 = Z.pos q.
Proof.
  intros Hl Ho Hk Hname.
  register_gpio_unfold.
  destruct (truthy dev); cbn [negb]; rewrite Hl, Ho;
    register_gpio_simpl; rewrite Hk; register_gpio_simpl;
    rewrite Hname; register_gpio_simpl;
    by destruct (IS_ERR (Z.pos q)).
Qed.

(** A provider call that returns a clock registered it, with exactly
    [CLK_IS_BASIC]. *)
Lemma get_registers_basic
    (of_get_named_gpio_flags : device_node → string → Z → kernel → Z * Z)
    (of_clk_get_parent_name : device_node → Z → kernel → option string)
    (clkspec : list Z) data k r data' k' :
  clk data = NULL →
  - MAX_ERRNO ≤ (lookup_of of_get_named_gpio_flags data k).1 →
  of_clk_gpio_delayed_register_get
    of_get_named_gpio_flags of_clk_get_parent_name clkspec data k
  = Some (r, data', k') →
  IS_ERR r = false →
  clk data' = r
  ∧ ∃ hw init,
      call_clk_register NULL hw init r ∈ calls_since k k'
      ∧ init_flags init = CLK_IS_BASIC
      ∧ core_flags <$> clocks k' !! r = Some CLK_IS_BASIC.
Proof.
  intros Hc Herrno Hget Hok.
  destruct (lock data) eqn:Hl; [by rewrite get_blocked in Hget|].
  destruct (Z.lt_ge_cases (lookup_of of_get_named_gpio_flags data k).1 0)
    as [Hneg|Hpos].
  - rewrite get_lookup_failed in Hget by assumption.
    injection Hget as <- <- <-.
    destruct (PTR_ERR_ERR_PTR (lookup_of of_get_named_gpio_flags data k).1)
      as [Herr _]; [lia|]. congruence.
  - rewrite get_construct in Hget by assumption.
    injection Hget as <- <- <-. rewrite Hok.
    destruct (construct_of_registered of_get_named_gpio_flags
                of_clk_get_parent_name data k Hok)
      as (p & _ & _ & Hlog & _ & _ & Hclk).
    split; [done|].
    exists p, (gpio_init_data (name (node data))
                 (parent_of of_get_named_gpio_flags of_clk_get_parent_name
                    data k) 0).
    split; [|split; [reflexivity|exact (f_equal (fmap core_flags) Hclk)]].
    erewrite calls_since_app
      by (rewrite calls_logged, Hlog, <- !app_assoc; reflexivity).
    do 5 apply list_elem_of_further. apply list_elem_of_here.
Qed.

(** C10. Every registration [clk_register_gpio] makes carries the
    caller's flags or-ed with [CLK_IS_BASIC], and so does the clock it
    returns; every registration a provider call makes carries exactly
    [CLK_IS_BASIC].  And the registrations are made: on a free line,
    with two addresses to hand out and the name not taken,
    [clk_register_gpio] returns a clock and its log has the
    registration of that clock with [flags | CLK_IS_BASIC]; a provider
    call on an unresolved node wired to such a line returns a clock,
    caches it, and its log has the registration of that clock with
    exactly [CLK_IS_BASIC], which are also the flags of the registered
    clock; and whenever a provider call on an unresolved node returns a
    clock at all, it has registered it so. *)
Theorem registered_flags_are_basic :
  (∀ dev nm parent flags g al k,
     let r := clk_register_gpio dev nm parent flags g al k in
     (∀ d hw init ret,
        call_clk_register d hw init ret ∈ calls_since k r.2 →
        init_flags init = Z.lor flags CLK_IS_BASIC)
     ∧ (IS_ERR r.1 = false →
        core_flags <$> clocks r.2 !! r.1 = Some (Z.lor flags CLK_IS_BASIC)))
  ∧ (∀ of_get_named_gpio_flags of_clk_get_parent_name clkspec
       data k r data' k' d hw init ret,
       of_clk_gpio_delayed_register_get
         of_get_named_gpio_flags of_clk_get_parent_name clkspec data k
       = Some (r, data', k') →
       call_clk_register d hw init ret ∈ calls_since k k' →
       init_flags init = CLK_IS_BASIC)
  ∧ (∀ dev nm parent flags g al k l p q rest,
       gpios k !! g = Some l → line_owner l = None →
       kmem k = p :: q :: rest →
       name_taken (Some nm) (clocks k) = false →
       IS_ERR (Z.pos q) = false →
       let r := clk_register_gpio dev nm parent flags g al k in
       r.1 = Z.pos q
       ∧ ∃ hw init,
           call_clk_register dev hw init r.1 ∈ calls_since k r.2
           ∧ init_flags init = Z.lor flags CLK_IS_BASIC
           ∧ core_flags <$> clocks r.2 !! r.1
             = Some (Z.lor flags CLK_IS_BASIC))
  ∧ (∀ of_get_named_gpio_flags of_clk_get_parent_name clkspec
       data k l p q rest,
       lock data = false → clk data = NULL →
       0 ≤ (lookup_of of_get_named_gpio_flags data k).1 →
       gpios k !! (lookup_of of_get_named_gpio_flags data k).1 = Some l →
       line_owner l = None →
       kmem k = p :: q :: rest →
       name_taken (Some (name (node data))) (clocks k) = false →
       IS_ERR (Z.pos q) = false →
       ∃ k' hw init,
         of_clk_gpio_delayed_register_get
           of_get_named_gpio_flags of_clk_get_parent_name clkspec data k
         = Some (Z.pos q, set_clk (Z.pos q) data, k')
         ∧ call_clk_register NULL hw init (Z.pos q) ∈ calls_since k k'
         ∧ init_flags init = CLK_IS_BASIC
         ∧ core_flags <$> clocks k' !! Z.pos q = Some CLK_IS_BASIC)
  ∧ (∀ of_get_named_gpio_flags of_clk_get_parent_name clkspec
       data k r data' k',
       clk data = NULL →
       - MAX_ERRNO ≤ (lookup_of of_get_named_gpio_flags data k).1 →
       of_clk_gpio_delayed_register_get
         of_get_named_gpio_flags of_clk_get_parent_name clkspec data k
       = Some (r, data', k') →
       IS_ERR r = false →
       clk data' = r
       ∧ ∃ hw init,
           call_clk_register NULL hw init r ∈ calls_since k k'
           ∧ init_flags init = CLK_IS_BASIC
           ∧ core_flags <$> clocks k' !! r = Some CLK_IS_BASIC).
Proof.
  split; [|split; [|split; [|split]]].
  - intros dev nm parent flags g al k r. subst r. split.
    + intros d hw init ret Hin.
      destruct (clk_register_gpio_log dev nm parent flags g al k)
        as (err & rest & Hlog & Hinit).
      rewrite (calls_since_app _ _ _ Hlog) in Hin.
      apply elem_of_cons in Hin as [Hin|Hin]; [congruence|].
      apply Hinit in Hin as ->. reflexivity.
    + intros Hok.
      destruct (clk_register_gpio_paths dev nm parent flags g al k)
        as [err _ _ He _| _ He _|p _ He _|p _ _ _ _ _ _ _ Hclk];
        try congruence.
      rewrite Hclk. reflexivity.
  - intros lookup parent clkspec data k r data' k' d hw init ret.
    apply get_log_flags.
  - intros dev nm parent flags g al k l p q rest Hl Ho Hk Hname Hq r. subst r.
    pose proof (register_gpio_succeeds dev nm parent flags g al k l p q rest
                  Hl Ho Hk Hname) as Hr.
    split; [exact Hr|].
    destruct (clk_register_gpio_paths dev nm parent flags g al k)
      as [err _ _ He _| _ He _|hw _ He _|hw _ _ _ Hlog _ _ _ Hclk];
      try congruence.
    exists hw, (gpio_init_data nm parent flags).
    split; [|split; [reflexivity|by rewrite Hclk]].
    rewrite (calls_since_app _ _ _ Hlog).
    do 2 apply list_elem_of_further. apply list_elem_of_here.
  - intros lookup parent clkspec data k l p q rest
      Hlock Hc Hpos Hl Ho Hk Hname Hq.
    assert (Hr : (construct_of lookup parent data k).1 = Z.pos q).
    { rewrite construct_of_eq.
      by apply (register_gpio_succeeds _ _ _ _ _ _ _ l p q rest). }
    assert (Hok : IS_ERR (construct_of lookup parent data k).1 = false)
      by (by rewrite Hr).
    pose proof (get_registered lookup parent clkspec data k Hlock Hc Hpos Hok)
      as Hget.
    rewrite Hr in Hget.
    destruct (get_registers_basic lookup parent clkspec data k _ _ _
                Hc ltac:(unfold MAX_ERRNO; lia) Hget Hq)
      as (_ & hw & init & Hin & Hfl & Hclk).
    by eexists _, hw, init.
  - intros lookup parent clkspec data k r data' k'.
    apply get_registers_basic.
Qed.

Lemma registered_flags_are_basic_witness :
  (let r := clk_register_gpio NULL "osc" None 4 42 false Board.boot in
   let init := gpio_init_data "osc" None 4 in
   call_clk_register NULL 16 init 32 ∈ calls_since Board.boot r.2
   ∧ init_flags init = Z.lor 4 CLK_IS_BASIC)
  ∧ ∃ k' hw init,
      Board.get (of_gpio_clk_setup_data Board.osc_node) Board.boot
      = Some (32, set_clk 32 (of_gpio_clk_setup_data Board.osc_node), k')
      ∧ call_clk_register NULL hw init 32 ∈ calls_since Board.boot k'
      ∧ init_flags init = CLK_IS_BASIC
      ∧ core_flags <$> clocks k' !! 32 = Some CLK_IS_BASIC.
Proof.
  assert (Hin : call_clk_register NULL 16 (gpio_init_data "osc" None 4) 32
                ∈ calls_since Board.boot
                    (clk_register_gpio NULL "osc" None 4 42 false Board.boot).2).
  { vm_compute. do 2 apply list_elem_of_further. apply list_elem_of_here. }
  destruct registered_flags_are_basic as (Hgen & _ & _ & Hprov & _).
  split.
  - split; [exact Hin|].
    exact (proj1 (Hgen NULL "osc" None 4 42 false Board.boot) _ _ _ _ Hin).
  - apply (Hprov dt_get_named_gpio_flags dt_clk_get_parent_name []
             (of_gpio_clk_setup_data Board.osc_node) Board.boot
             {| line_owner := None; line_level := true |} 16%positive
             32%positive []);
      try reflexivity. vm_compute. discriminate.
Defined.

(** X8. A first call of the provider that succeeds is the only one
    that works: of any number of calls in a row on an unresolved node
    whose lookup and construction succeed, every call returns the clock
    the first one registered, [data->clk] holds it, and the whole log
    has exactly one line request and one registration and releases
    nothing. *)
Theorem first_success_is_cached
    (of_get_named_gpio_flags : device_node → string → Z → kernel → Z * Z)
    (of_clk_get_parent_name : device_node → Z → kernel → option string)
    (clkspec : list Z) (data : clk_gpio_delayed_register_data) (k : kernel)
    (n : nat) :
  let get := of_clk_gpio_delayed_register_get
               of_get_named_gpio_flags of_clk_get_parent_name clkspec in
  let c := (construct_of of_get_named_gpio_flags of_clk_get_parent_name data k).1 in
  lock data = false → clk data = NULL →
  0 ≤ (lookup_of of_get_named_gpio_flags data k).1 →
  IS_ERR c = false →
  ∃ k',
    get_n get (S n) data k = Some (replicate (S n) c, set_clk c data, k')
    ∧ length (List.filter is_request (calls_since k k')) = 1%nat
    ∧ length (List.filter is_register (calls_since k k')) = 1%nat
    ∧ released (calls_since k k') = [].
Proof.
  intros get c Hl Hc Hpos Hok. subst get c.
  destruct (get_n_resolves of_get_named_gpio_flags of_clk_get_parent_name
              clkspec data k n Hl Hc Hpos Hok) as (k' & Hget & p & Hlog).
  exists k'. split; [exact Hget|]. rewrite Hlog. unfold released.
  rewrite !List.filter_app, !filter_mutex_pairs by done.
  by unfold lookup_call, parent_call.
Qed.

Lemma first_success_is_cached_witness :
  ∃ k',
    get_n Board.get 3 (of_gpio_clk_setup_data Board.osc_node) Board.boot
    = Some ([32; 32; 32], set_clk 32 (of_gpio_clk_setup_data Board.osc_node), k')
    ∧ length (List.filter is_request (calls_since Board.boot k')) = 1%nat.
Proof.
  destruct (first_success_is_cached
              dt_get_named_gpio_flags dt_clk_get_parent_name []
              (of_gpio_clk_setup_data Board.osc_node) Board.boot 2
              eq_refl eq_refl) as (k' & Hget & Hreq & _).
  - vm_compute. discriminate.
  - reflexivity.
  - exists k'. split; [exact Hget|exact Hreq].
Defined.

(** X9. The clock a provider call registers follows the node: it
    gates the line the lookup answered, is active low exactly when bit
    0 ([OF_GPIO_ACTIVE_LOW]) of the lookup flags is set, is named after
    the node, has the parent [of_clk_get_parent_name] answered, carries
    the flags [CLK_IS_BASIC], and is unmanaged (the line is requested
    for no device); its line is left at the active level. *)
Theorem resolved_clock_follows_description
    (of_get_named_gpio_flags : device_node → string → Z → kernel → Z * Z)
    (of_clk_get_parent_name : device_node → Z → kernel → option string)
    (clkspec : list Z) (data : clk_gpio_delayed_register_data) (k : kernel) :
  let line := (lookup_of of_get_named_gpio_flags data k).1 in
  let flags := (lookup_of of_get_named_gpio_flags data k).2 in
  let parent := parent_of of_get_named_gpio_flags of_clk_get_parent_name data k in
  let c := (construct_of of_get_named_gpio_flags of_clk_get_parent_name data k).1 in
  lock data = false → clk data = NULL → 0 ≤ line → IS_ERR c = false →
  ∃ k' p hw,
    of_clk_gpio_delayed_register_get
      of_get_named_gpio_flags of_clk_get_parent_name clkspec data k
    = Some (c, set_clk c data, k')
    ∧ clocks k' !! c =
        Some {| core_name := Some (name (node data));
                core_ops := Some clk_gpio_ops_ref;
                core_hw := p; core_flags := CLK_IS_BASIC;
                core_parent_names := parent;
                core_num_parents := if parent is Some _ then 1 else 0 |}
    ∧ heap k' !! p = Some hw
    ∧ gpio hw = line ∧ active_low hw = Z.testbit flags 0
    ∧ gpio_level k' line = negb (Z.testbit flags 0)
    ∧ call_gpio_request_one NULL line
        (gpio_init_flags (Z.testbit flags 0)) (name (node data)) 0
      ∈ calls_since k k'.
Proof.
  intros line flags parent c Hl Hc Hpos Hok. subst line flags parent c.
  destruct (construct_of_registered of_get_named_gpio_flags
              of_clk_get_parent_name data k Hok)
    as (p & _ & _ & Hlog & Hlvl & Hheap & Hclk).
  eexists _, p, _. split; [by apply get_registered|].
  split; [exact Hclk|]. split; [exact Hheap|].
  do 3 (split; [done|]).
  erewrite calls_since_app by (rewrite calls_logged, Hlog, <- !app_assoc; reflexivity).
  do 3 apply list_elem_of_further. apply list_elem_of_here.
Qed.

Lemma resolved_clock_follows_description_witness :
  ∃ k' p hw,
    Board.get (of_gpio_clk_setup_data Board.osc_node) Board.boot
    = Some (32, set_clk 32 (of_gpio_clk_setup_data Board.osc_node), k')
    ∧ heap k' !! p = Some hw ∧ gpio hw = 42 ∧ active_low hw = true.
Proof.
  destruct (resolved_clock_follows_description
              dt_get_named_gpio_flags dt_clk_get_parent_name []
              (of_gpio_clk_setup_data Board.osc_node) Board.boot
              eq_refl eq_refl) as (k' & p & hw & Hget & _ & Hheap & Hg & Hal & _).
  - vm_compute. discriminate.
  - reflexivity.
  - exists k', p, hw. split; [exact Hget|]. split; [exact Hheap|].
    split; [exact Hg|exact Hal].
Defined.

Lemma every_path_unlocks_witness :
  ∃ r data' k',
    Board.get (of_gpio_clk_setup_data Board.bad_node) Board.boot
    = Some (r, data', k')
    ∧ lock data' = false
    ∧ List.filter is_mutex (calls_since Board.boot k')
      = [call_mutex_lock; call_mutex_unlock].
Proof.
  destruct (every_path_unlocks dt_get_named_gpio_flags dt_clk_get_parent_name []
              (of_gpio_clk_setup_data Board.bad_node) Board.boot eq_refl)
    as (r & data' & k' & Hget & Hl & _ & Hlog).
  by exists r, data', k'.
Defined.

(** X11. The provider caches successes and only successes.  A call on
    an unresolved node (lookup answering a line or an errno) either
    returns an error pointer and leaves [data] exactly as it was, or
    returns a clock that is not NULL and has stored exactly that clock
    in [data->clk]; it never returns NULL and never caches an error. *)
Theorem error_iff_unresolved
    (of_get_named_gpio_flags : device_node → string → Z → kernel → Z * Z)
    (of_clk_get_parent_name : device_node → Z → kernel → option string)
    (clkspec : list Z) (data : clk_gpio_delayed_register_data) (k : kernel) :
  lock data = false → clk data = NULL →
  - MAX_ERRNO ≤ (lookup_of of_get_named_gpio_flags data k).1 →
  ∃ r data' k',
    of_clk_gpio_delayed_register_get
      of_get_named_gpio_flags of_clk_get_parent_name clkspec data k
    = Some (r, data', k')
    ∧ (IS_ERR r = true ∧ data' = data
       ∨ IS_ERR r = false ∧ r ≠ NULL ∧ data' = set_clk r data).
Proof.
  intros Hl Hc Herrno.
  destruct (Z.lt_ge_cases (lookup_of of_get_named_gpio_flags data k).1 0)
    as [Hneg|Hpos].
  - eexists _, _, _. split; [by apply get_lookup_failed|]. left.
    split; [|done]. by apply PTR_ERR_ERR_PTR.
  - eexists _, _, _. split; [by apply get_construct|].
    destruct (IS_ERR _) eqn:Hok; [by left|right].
    destruct (construct_of_registered _ _ _ _ Hok) as (p & _ & Hnz & _).
    done.
Qed.

Lemma error_iff_unresolved_witness :
  ∃ r data' k',
    Board.get (of_gpio_clk_setup_data Board.lcd_node) Board.boot
    = Some (r, data', k')
    ∧ (IS_ERR r = true ∧ data' = of_gpio_clk_setup_data Board.lcd_node
       ∨ IS_ERR r = false ∧ r ≠ NULL
         ∧ data' = set_clk r (of_gpio_clk_setup_data Board.lcd_node)).
Proof.
  apply (error_iff_unresolved dt_get_named_gpio_flags dt_clk_get_parent_name []
           (of_gpio_clk_setup_data Board.lcd_node) Board.boot);
    [reflexivity|reflexivity|vm_compute; discriminate].
Defined.

(** X5. A failed request releases a line it never held.  When the
    line belongs to somebody else, the unmanaged [clk_register_gpio]
    (no device) returns [-EBUSY], and on its way out calls [gpio_free]
    on that line: the log is the request, the message, the free; the
    line has lost its owner (its level and all other lines are as they
    were).  With a device the same call releases nothing and leaves the
    lines alone.  The provider always registers without a device, so a
    provider call on a node wired to such a line fails with [-EBUSY],
    stays unresolved, and has taken the line from its owner. *)
Theorem failed_request_frees_line
    (nm : string) (parent : option string) (flags g : Z) (al : bool)
    (k : kernel) (l : gpio_line) (owner : string) :
  gpios k !! g = Some l → line_owner l = Some owner →
  let r dev := clk_register_gpio dev nm parent flags g al k in
  ((r NULL).1 = ERR_PTR (- EBUSY)
   ∧ calls_since k (r NULL).2 =
       [call_gpio_request_one NULL g (gpio_init_flags al) nm (- EBUSY);
        msg_request nm g; call_gpio_free g]
   ∧ gpios (r NULL).2 !! g
     = Some {| line_owner := None; line_level := line_level l |}
   ∧ (∀ g', g' ≠ g → gpios (r NULL).2 !! g' = gpios k !! g')
   ∧ (∀ dev, dev ≠ NULL →
        (r dev).1 = ERR_PTR (- EBUSY) ∧ gpios (r dev).2 = gpios k
        ∧ released (calls_since k (r dev).2) = []))
  ∧ (∀ of_get_named_gpio_flags of_clk_get_parent_name clkspec data,
       lock data = false → clk data = NULL →
       (lookup_of of_get_named_gpio_flags data k).1 = g → 0 ≤ g →
       ∃ k',
         of_clk_gpio_delayed_register_get
           of_get_named_gpio_flags of_clk_get_parent_name clkspec data k
         = Some (ERR_PTR (- EBUSY), data, k')
         ∧ gpios k' !! g
           = Some {| line_owner := None; line_level := line_level l |}).
Proof.
  intros Hl Ho r. split; [by apply (register_gpio_busy _ _ _ _ _ _ l owner)|].
  intros lookup parent_name clkspec data Hlock Hc Hline Hpos.
  eexists. rewrite get_construct by (rewrite ?Hline; done).
  unfold construct_of. rewrite Hline.
  match goal with |- context [clk_register_gpio ?d ?n ?p ?f g ?a ?k0] =>
    destruct (register_gpio_busy n p f g a k0 l owner Hl Ho) as (Hr & _ & Hg & _)
  end.
  cbn beta in Hr, Hg. rewrite Hr.
  change (IS_ERR (ERR_PTR (- EBUSY))) with true. cbv iota.
  split; [reflexivity|exact Hg].
Qed.

Lemma failed_request_frees_line_witness :
  ∃ k',
    Board.get (of_gpio_clk_setup_data backlight_clock_node) Board.boot
    = Some (ERR_PTR (- EBUSY), of_gpio_clk_setup_data backlight_clock_node, k')
    ∧ line_owner <$> gpios Board.boot !! 7 = Some (Some "backlight")
    ∧ line_owner <$> gpios k' !! 7 = Some None.
Proof.
  destruct (failed_request_frees_line "blclk" None 0 7 false Board.boot
              {| line_owner := Some "backlight"; line_level := true |}
              "backlight" eq_refl eq_refl) as [_ Hget].
  destruct (Hget dt_get_named_gpio_flags dt_clk_get_parent_name []
              (of_gpio_clk_setup_data backlight_clock_node)
              eq_refl eq_refl eq_refl) as (k' & Hk' & Hg).
  - vm_compute. discriminate.
  - exists k'. split; [exact Hk'|]. split; [reflexivity|]. by rewrite Hg.
Defined.

(** X6. A failed unmanaged construction leaves no resource behind.
    When the line is there and free and the allocator hands out fresh,
    valid addresses, an unmanaged [clk_register_gpio] that fails has
    put back what it took: heap, allocator, registered clocks and
    device-managed resources are what they were, and the line is
    unowned again; only its level stays where the request drove it
    (the active level).  The same holds of a provider call that
    returns an error after a successful lookup, which also leaves
    [data] as it was. *)
Theorem unmanaged_failure_restores_state
    (nm : string) (parent : option string) (flags g : Z) (al : bool)
    (k : kernel) (l : gpio_line) :
  gpios k !! g = Some l → line_owner l = None →
  (∀ p, p ∈ kmem k → heap k !! Z.pos p = None ∧ IS_ERR (Z.pos p) = false) →
  let restored k' :=
    heap k' = heap k ∧ kmem k' = kmem k ∧ clocks k' = clocks k
    ∧ devm k' = devm k
    ∧ gpios k' = <[g := {| line_owner := None; line_level := negb al |}]> (gpios k) in
  (let r := clk_register_gpio NULL nm parent flags g al k in
   IS_ERR r.1 = true → restored r.2)
  ∧ (∀ of_get_named_gpio_flags of_clk_get_parent_name clkspec data r data' k',
       lock data = false → clk data = NULL →
       (lookup_of of_get_named_gpio_flags data k).1 = g → 0 ≤ g →
       Z.testbit (lookup_of of_get_named_gpio_flags data k).2 0 = al →
       of_clk_gpio_delayed_register_get
         of_get_named_gpio_flags of_clk_get_parent_name clkspec data k
       = Some (r, data', k') →
       IS_ERR r = true → data' = data ∧ restored k').
Proof.
  intros Hl Ho Hmem restored. subst restored. cbn beta.
  split; [by apply (register_gpio_failure_state _ _ _ _ _ _ l)|].
  intros lookup parent_name clkspec data r data' k' Hlock Hc Hline Hpos Hal.
  rewrite get_construct by (rewrite ?Hline; done).
  rewrite construct_of_eq, Hline, Hal.
  match goal with |- context [clk_register_gpio NULL ?n ?p ?f g al ?k0] =>
    pose proof (register_gpio_failure_state n p f g al k0 l Hl Ho Hmem) as Hst;
    destruct (clk_register_gpio NULL n p f g al k0) as [c k3]
  end.
  cbn [fst snd] in *. intros [= <- <- <-] Herr. rewrite Herr.
  split; [done|]. exact (Hst Herr).
Qed.

Lemma unmanaged_failure_restores_state_witness :
  let k := Board.boot_osc_taken in
  ∃ k',
    Board.get (of_gpio_clk_setup_data Board.osc_node) k
    = Some (ERR_PTR (- EEXIST), of_gpio_clk_setup_data Board.osc_node, k')
    ∧ heap k' = heap k ∧ kmem k' = kmem k ∧ clocks k' = clocks k.
Proof.
  intros k.
  assert (Hmem : ∀ p, p ∈ kmem k →
            heap k !! Z.pos p = None ∧ IS_ERR (Z.pos p) = false).
  { intros p Hp. repeat (apply elem_of_cons in Hp as [->|Hp]); [done..|].
    by apply elem_of_nil in Hp. }
  destruct (Board.get (of_gpio_clk_setup_data Board.osc_node) k)
    as [[[r data'] k']|] eqn:Hget; [|vm_compute in Hget; discriminate Hget].
  assert (Hr : r = ERR_PTR (- EEXIST) ∧ data' = of_gpio_clk_setup_data Board.osc_node).
  { vm_compute in Hget. by injection Hget as <- <- _. }
  destruct Hr as [-> ->].
  destruct (unmanaged_failure_restores_state "osc" None 0 42 true k
              {| line_owner := None; line_level := true |}
              eq_refl eq_refl Hmem) as [_ Hprov].
  destruct (Hprov dt_get_named_gpio_flags dt_clk_get_parent_name []
              (of_gpio_clk_setup_data Board.osc_node) (ERR_PTR (- EEXIST))
              (of_gpio_clk_setup_data Board.osc_node) k'
              eq_refl eq_refl eq_refl) as (_ & Hh & Hm & Hc & _);
    [vm_compute; discriminate|reflexivity|exact Hget|reflexivity|].
  exists k'. by repeat split.
Defined.

Lemma run_app lookup parent a b s :
  run lookup parent (a ++ b) s = run lookup parent b (run lookup parent a s).
Proof. revert s. induction a as [|i a IH]; intros s; [done|]. cbn. apply IH. Qed.

Lemma total_moves_insert ts i t t' :
  ts !! i = Some t →
  (total_moves (<[i:=t']> ts) + moves_left t = total_moves ts + moves_left t')%nat.
Proof.
  unfold total_moves. revert i. induction ts as [|t0 ts IH]; intros [|i] Hi;
    try done; cbn in *.
  - injection Hi as ->. lia.
  - rewrite <- !Nat.add_assoc. f_equal. exact (IH i Hi).
Qed.

Lemma total_moves_zero ts :
  total_moves ts = 0%nat → ∀ i t, ts !! i = Some t → has_returned t = true.
Proof.
  unfold total_moves. induction ts as [|t0 ts IH]; intros Hz [|i] t Hi;
    try done; cbn in *.
  - injection Hi as ->. by destruct t.
  - apply (IH ltac:(lia) i t Hi).
Qed.

Section Progress.
Variable of_get_named_gpio_flags :
  device_node → string → Z → kernel → Z * Z.
Variable of_clk_get_parent_name :
  device_node → Z → kernel → option string.

Local Abbreviation step' := (step of_get_named_gpio_flags of_clk_get_parent_name).
Local Abbreviation sys_step' := (sys_step of_get_named_gpio_flags of_clk_get_parent_name).
Local Abbreviation run' := (run of_get_named_gpio_flags of_clk_get_parent_name).

(** What a move does to the caller, the mutex and the cached clock. *)
Lemma step_shape t d k t' d' k' :
  step' t d k = Some (t', d', k') →
  (moves_left t' < moves_left t)%nat
  ∧ node d' = node d
  ∧ lock d' = (if in_cs t' then (if in_cs t then lock d else true)
               else (if in_cs t then false else lock d))
  ∧ (clk d' = clk d ∨ ∃ c, t = at_registered c ∧ IS_ERR c = false).
Proof.
  intros Hstep. destruct t as [| | | |gpio|gpio gpio_flags|c|r];
    cbn [step] in Hstep.
  - destruct (lock d); [done|]. injection Hstep as <- <- <-. cbn.
    repeat split; auto with lia.
  - destruct (truthy (clk d)); injection Hstep as <- <- <-; cbn;
      repeat split; auto with lia.
  - injection Hstep as <- <- <-. cbn. repeat split; auto with lia.
  - destruct (of_get_named_gpio_flags _ _ _ _) as [gp fl]. cbv beta iota in Hstep.
    destruct (gp <? 0); injection Hstep as <- <- <-; cbn;
      repeat split; auto with lia.
  - injection Hstep as <- <- <-. cbn. repeat split; auto with lia.
  - destruct (clk_register_gpio _ _ _ _ _ _ _) as [c k2].
    cbv beta iota zeta in Hstep. injection Hstep as <- <- <-. cbn.
    repeat split; auto with lia.
  - destruct (IS_ERR c) eqn:Hc; injection Hstep as <- <- <-; cbn;
      repeat split; eauto with lia.
  - done.
Qed.

(** A caller can move unless it waits for a held mutex or has returned. *)
Lemma step_enabled t d k :
  has_returned t = false → (in_cs t = false → lock d = false) →
  is_Some (step' t d k).
Proof.
  intros Hret Hlock. destruct t as [| | | |gpio|gpio gpio_flags|c|r];
    cbn [step]; try done.
  - rewrite Hlock by done. eauto.
  - destruct (truthy (clk d)); eauto.
  - destruct (of_get_named_gpio_flags _ _ _ _) as [gp fl]. cbv beta iota.
    destruct (gp <? 0); eauto.
  - destruct (clk_register_gpio _ _ _ _ _ _ _) as [c k2]. eauto.
  - destruct (IS_ERR c); eauto.
Qed.

Lemma holder_exists_step i s :
  holder_exists s → holder_exists (sys_step' i s).
Proof.
  intros Hh. unfold sys_step.
  destruct (threads s !! i) as [t|] eqn:Hi; [|done].
  destruct (step' t (shared s) (world s)) as [[[t' d'] k']|] eqn:Hstep; [|done].
  destruct (step_shape _ _ _ _ _ _ Hstep) as (_ & _ & Hlock & _).
  intros Hl. cbn in *.
  destruct (in_cs t') eqn:Hin'.
  - exists i, t'. split; [|done].
    apply list_lookup_insert_eq. by eapply lookup_lt_Some.
  - destruct (in_cs t) eqn:Hin; [congruence|].
    destruct Hh as (j & tj & Hj & Hinj); [congruence|].
    exists j, tj. split; [|done].
    rewrite list_lookup_insert_ne; [done|]. intros ->. congruence.
Qed.

Lemma holder_exists_run schedule s :
  holder_exists s → holder_exists (run' schedule s).
Proof.
  revert s. induction schedule as [|i schedule IH]; intros s Hh; [done|].
  cbn. by apply IH, holder_exists_step.
Qed.

Lemma holder_exists_callers n np k : holder_exists (callers n np k).
Proof. intros Hl. cbn in Hl. done. Qed.

Lemma total_moves_step i s :
  (total_moves (threads (sys_step' i s)) ≤ total_moves (threads s))%nat.
Proof.
  unfold sys_step.
  destruct (threads s !! i) as [t|] eqn:Hi; [|done].
  destruct (step' t (shared s) (world s)) as [[[t' d'] k']|] eqn:Hstep; [|done].
  destruct (step_shape _ _ _ _ _ _ Hstep) as (Hlt & _).
  pose proof (total_moves_insert _ _ _ t' Hi). cbn [threads]. lia.
Qed.

Lemma total_moves_run schedule s :
  (total_moves (threads (run' schedule s)) ≤ total_moves (threads s))%nat.
Proof.
  revert s. induction schedule as [|i schedule IH]; intros s; [done|].
  cbn. etrans; [apply IH|apply total_moves_step].
Qed.

Lemma total_moves_callers n np k :
  total_moves (threads (callers n np k)) = (5 * n)%nat.
Proof.
  cbn [callers threads]. unfold total_moves.
  induction n as [|n IH]; [done|].
  cbn [replicate fmap list_fmap sum_list sum_list_with moves_left id].
  rewrite IH. lia.
Qed.

(** Some caller that has not returned can always move. *)
Lemma some_caller_moves s :
  holder_exists s →
  (∃ i t, threads s !! i = Some t ∧ has_returned t = false) →
  ∃ i t, threads s !! i = Some t ∧ is_Some (step' t (shared s) (world s)).
Proof.
  intros Hh (i & t & Hi & Hret).
  destruct (lock (shared s)) eqn:Hl.
  - destruct Hh as (j & tj & Hj & Hin); [done|].
    exists j, tj. split; [done|]. apply step_enabled; [by destruct tj|congruence].
  - exists i, t. split; [done|]. by apply step_enabled.
Qed.

Lemma callers_finish m : ∀ s,
  total_moves (threads s) = m → holder_exists s →
  ∃ schedule,
    (length schedule ≤ m)%nat
    ∧ ∀ i t, threads (run' schedule s) !! i = Some t → has_returned t = true.
Proof.
  induction (lt_wf m) as [m _ IH]. intros s Hm Hh.
  destruct (decide (Forall (λ t, has_returned t = true) (threads s))) as [Hall|Hnot].
  - exists []. split; [cbn; lia|]. intros i t Hi. cbn in Hi.
    by eapply (proj1 (Forall_lookup _ _) Hall).
  - apply not_Forall_Exists in Hnot; [|solve_decision].
    apply Exists_exists in Hnot as (t & Ht & Hret).
    apply list_elem_of_lookup in Ht as (i & Hi).
    destruct (some_caller_moves s Hh) as (j & tj & Hj & [[[t' d'] k'] Hstep]).
    { exists i, t. split; [done|]. apply not_true_is_false, Hret. }
    pose proof (total_moves_insert _ _ _ t' Hj) as Htot.
    destruct (step_shape _ _ _ _ _ _ Hstep) as (Hlt & _).
    assert (Hs : sys_step' j s
                 = {| shared := d'; world := k'; threads := <[j:=t']> (threads s) |}).
    { unfold sys_step. by rewrite Hj, Hstep. }
    destruct (IH (total_moves (threads (sys_step' j s)))) with (s := sys_step' j s)
      as (schedule & Hlen & Hfin).
    + rewrite Hs. cbn [threads]. lia.
    + done.
    + by apply holder_exists_step.
    + exists (j :: schedule). split; [|done].
      rewrite Hs in Hlen. cbn [threads] in Hlen. cbn [length]. lia.
Qed.

End Progress.

Section Resolved.
Variable of_get_named_gpio_flags :
  device_node → string → Z → kernel → Z * Z.
Variable of_clk_get_parent_name :
  device_node → Z → kernel → option string.
Hypothesis lookup_errno :
  ∀ np prop index k, - MAX_ERRNO ≤ (of_get_named_gpio_flags np prop index k).1.

Local Abbreviation step' := (step of_get_named_gpio_flags of_clk_get_parent_name).
Local Abbreviation sys_step' := (sys_step of_get_named_gpio_flags of_clk_get_parent_name).
Local Abbreviation run' := (run of_get_named_gpio_flags of_clk_get_parent_name).

(** A move made while [data->clk] is set. *)
Lemma step_resolved log s i :
  invariant log s → clk (shared s) ≠ NULL →
  clk (shared (sys_step' i s)) = clk (shared s)
  ∧ unchanged (world s) (world (sys_step' i s))
  ∧ noconstruct (calls_since (world s) (world (sys_step' i s))) = true
  ∧ ∀ j tj, threads s !! j = Some tj → fast_path (clk (shared s)) tj →
      ∃ tj', threads (sys_step' i s) !! j = Some tj'
             ∧ fast_path (clk (shared s)) tj'.
Proof.
  intros Hinv Hclk.
  assert (Hrefl : unchanged (world s) (world s)) by (by repeat split).
  assert (Hnil : noconstruct (calls_since (world s) (world s)) = true).
  { unfold calls_since. by rewrite drop_all. }
  unfold sys_step. destruct (threads s !! i) as [t|] eqn:Hi; [|by eauto 10].
  pose proof (inv_thread _ _ Hinv i t Hi) as Hok.
  assert (Hmove : ∀ t' d' k' new,
            k' = logged new (world s) →
            clk d' = clk (shared s) → noconstruct new = true →
            (fast_path (clk (shared s)) t → fast_path (clk (shared s)) t') →
            let s' := {| shared := d'; world := k';
                         threads := <[i:=t']> (threads s) |} in
            clk (shared s') = clk (shared s)
            ∧ unchanged (world s) (world s')
            ∧ noconstruct (calls_since (world s) (world s')) = true
            ∧ ∀ j tj, threads s !! j = Some tj → fast_path (clk (shared s)) tj →
                ∃ tj', threads s' !! j = Some tj'
                       ∧ fast_path (clk (shared s)) tj').
  { intros t' d' k' new -> Hd Hnew Hfast s'. subst s'.
    cbn [shared world threads].
    split; [done|]. split; [apply unchanged_logged|].
    split; [by rewrite calls_since_logged|].
    intros j tj Hj Hfj. destruct (decide (j = i)) as [->|Hne].
    - exists t'. split; [apply list_lookup_insert_eq; by eapply lookup_lt_Some|].
      apply Hfast. congruence.
    - exists tj. split; [by rewrite list_lookup_insert_ne|done]. }
  destruct t as [| | | |gpio|gpio gpio_flags|c|r]; cbn [step thread_ok] in *;
    try done; try (by destruct Hok).
  - destruct (lock (shared s)); [by eauto 10|].
    by apply (Hmove at_check _ _ [call_mutex_lock]).
  - rewrite (proj2 (truthy_true (clk (shared s))) Hclk).
    by apply (Hmove at_return_cached _ _ [call_mutex_unlock]).
  - apply (Hmove (returned (clk (shared s))) _ _ []); try done.
    by rewrite logged_nil.
  - destruct (negb (gpio =? - EPROBE_DEFER)).
    + by apply (Hmove (returned (ERR_PTR gpio)) _ _
                  [msg_lookup (name (node (shared s)))]).
    + apply (Hmove (returned (ERR_PTR gpio)) _ _ []); try done.
      by rewrite logged_nil.
  - by eauto 10.
Qed.

Lemma run_resolved rest : ∀ log s,
  invariant log s → clk (shared s) ≠ NULL →
  clk (shared (run' rest s)) = clk (shared s)
  ∧ unchanged (world s) (world (run' rest s))
  ∧ noconstruct (calls_since (world s) (world (run' rest s))) = true
  ∧ ∀ j tj, threads s !! j = Some tj → fast_path (clk (shared s)) tj →
      ∃ tj', threads (run' rest s) !! j = Some tj'
             ∧ fast_path (clk (shared s)) tj'.
Proof.
  induction rest as [|i rest IH]; intros log s Hinv Hclk.
  - cbn [run]. split; [done|]. split; [by repeat split|].
    split; [unfold calls_since; by rewrite drop_all|]. eauto.
  - cbn [run].
    destruct (step_resolved log s i Hinv Hclk) as (Hc1 & Hu1 & Hn1 & Hf1).
    destruct (sys_step_invariant of_get_named_gpio_flags of_clk_get_parent_name
                lookup_errno log s i Hinv)
      as (new1 & Hlog1 & Hinv1).
    destruct (IH _ _ Hinv1 ltac:(congruence)) as (Hc2 & Hu2 & Hn2 & Hf2).
    destruct (run_invariant of_get_named_gpio_flags of_clk_get_parent_name
                lookup_errno rest _ _ Hinv1)
      as (new2 & Hlog2 & _).
    rewrite Hc1 in *.
    split; [done|]. split.
    { destruct Hu1 as (? & ? & ? & ? & ?), Hu2 as (? & ? & ? & ? & ?).
      repeat split; congruence. }
    split.
    { rewrite (calls_since_app _ _ (new1 ++ new2))
        by (by rewrite Hlog2, Hlog1, app_assoc).
      rewrite (calls_since_app _ _ new1 Hlog1) in Hn1.
      rewrite (calls_since_app _ _ new2 Hlog2) in Hn2.
      by rewrite forallb_app, Hn1, Hn2. }
    intros j tj Hj Hfj. destruct (Hf1 j tj Hj Hfj) as (tj1 & Hj1 & Hfj1).
    exact (Hf2 j tj1 Hj1 Hfj1).
Qed.

End Resolved.

(** X12. Concurrent callers never get stuck.  From every state that
    [n] callers of one provider can reach, under whatever interleaving
    and whatever the lookups answer, some continuation of at most [5 n]
    moves brings every caller to its return with the mutex free: a
    caller that cannot move waits for a mutex whose holder can, and no
    path of the function leaves the mutex held (each caller makes at
    most five moves). *)
Theorem callers_can_always_finish
    (of_get_named_gpio_flags : device_node → string → Z → kernel → Z * Z)
    (of_clk_get_parent_name : device_node → Z → kernel → option string)
    (n : nat) (np : device_node) (k : kernel) (schedule : list nat) :
  let s := run of_get_named_gpio_flags of_clk_get_parent_name schedule
             (callers n np k) in
  ∃ rest,
    (length rest ≤ 5 * n)%nat
    ∧ let s' := run of_get_named_gpio_flags of_clk_get_parent_name rest s in
      length (threads s') = n
      ∧ (∀ i t, threads s' !! i = Some t → has_returned t = true)
      ∧ lock (shared s') = false.
Proof.
  intros s.
  assert (Hh : holder_exists s).
  { apply holder_exists_run, holder_exists_callers. }
  destruct (callers_finish of_get_named_gpio_flags of_clk_get_parent_name
              (total_moves (threads s)) s eq_refl Hh) as (rest & Hlen & Hfin).
  exists rest. split.
  { etrans; [exact Hlen|]. rewrite <- (total_moves_callers n np k).
    apply total_moves_run. }
  intros s'. split.
  { subst s' s. rewrite !threads_length_run. cbn. apply length_replicate. }
  split; [exact Hfin|].
  destruct (lock (shared s')) eqn:Hl; [|done].
  destruct (holder_exists_run of_get_named_gpio_flags of_clk_get_parent_name
              rest s Hh Hl) as (i & t & Hi & Hin).
  specialize (Hfin i t Hi). by destruct t.
Qed.

(** X13. Once [data->clk] is set it stays: however the callers go on
    interleaving, [data->clk] keeps its value, no GPIO line is
    requested and nothing is registered any more, nothing of the kernel
    state but the call log changes, and every caller that had not yet
    taken the mutex when the clock was set returns exactly that clock
    (never an error). *)
Theorem resolved_stays_resolved
    (of_get_named_gpio_flags : device_node → string → Z → kernel → Z * Z)
    (of_clk_get_parent_name : device_node → Z → kernel → option string)
    (n : nat) (np : device_node) (k : kernel) (schedule rest : list nat) :
  (∀ np prop index k,
     - MAX_ERRNO ≤ (of_get_named_gpio_flags np prop index k).1) →
  let s := run of_get_named_gpio_flags of_clk_get_parent_name schedule
             (callers n np k) in
  let s' := run of_get_named_gpio_flags of_clk_get_parent_name rest s in
  clk (shared s) ≠ NULL →
  clk (shared s') = clk (shared s)
  ∧ unchanged (world s) (world s')
  ∧ noconstruct (calls_since (world s) (world s')) = true
  ∧ ∀ i r, threads s !! i = Some at_lock →
      threads s' !! i = Some (returned r) → r = clk (shared s).
Proof.
  intros Herrno s s' Hclk.
  destruct (run_invariant of_get_named_gpio_flags of_clk_get_parent_name
              Herrno schedule [] (callers n np k) (callers_invariant n np k))
    as (new & _ & Hinv).
  fold s in Hinv.
  destruct (run_resolved of_get_named_gpio_flags of_clk_get_parent_name
              Herrno rest _ s Hinv Hclk) as (Hc & Hu & Hn & Hf).
  fold s' in Hc, Hu, Hn, Hf.
  do 3 (split; [done|]).
  intros i r Hi Hi'. destruct (Hf i at_lock Hi I) as (t' & Ht' & Hfast).
  rewrite Hi' in Ht'. injection Ht' as <-. exact Hfast.
Qed.

Lemma resolved_stays_resolved_witness :
  let s := run dt_get_named_gpio_flags dt_clk_get_parent_name
             [0; 0; 0; 0; 0]%nat (callers 2 Board.osc_node Board.boot) in
  let s' := run dt_get_named_gpio_flags dt_clk_get_parent_name
              [1; 1; 1; 1]%nat s in
  threads s = [returned 32; at_lock]
  ∧ threads s' = [returned 32; returned 32]
  ∧ clk (shared s') = clk (shared s)
  ∧ noconstruct (calls_since (world s) (world s')) = true.
Proof.
  intros s s'.
  assert (Hclk : clk (shared s) ≠ NULL) by (vm_compute; discriminate).
  destruct (resolved_stays_resolved dt_get_named_gpio_flags
              dt_clk_get_parent_name 2 Board.osc_node Board.boot
              [0; 0; 0; 0; 0]%nat [1; 1; 1; 1]%nat dt_lookup_errno Hclk)
    as (Hc & _ & Hn & _).
  split; [reflexivity|]. split; [reflexivity|]. split; [exact Hc|exact Hn].
Defined.

Lemma unmanaged_success_state_witness :
  let r := clk_register_gpio NULL "osc" None 0 42 true Board.boot in
  r.1 = 32
  ∧ gpios r.2 !! 42 = Some {| line_owner := Some "osc"; line_level := false |}
  ∧ (∃ hw, heap r.2 !! 16 = Some hw ∧ gpio hw = 42 ∧ active_low hw = true)
  ∧ kmem r.2 = [].
Proof.
  intros r.
  destruct (unmanaged_success_state "osc" None 0 42 true Board.boot
              {| line_owner := None; line_level := true |} 16 32 []
              eq_refl eq_refl eq_refl eq_refl eq_refl)
    as (Hr & Hg & Hhw & _ & _ & Hm & _).
  split; [exact Hr|]. split; [|split; [exact Hhw|exact Hm]].
  fold r in Hg. rewrite Hg. apply lookup_insert_eq.
Defined.

Lemma registration_describes_gate_witness :
  let r := clk_register_gpio NULL "osc" (Some "pll") 0 42 false Board.boot in
  let init := gpio_init_data "osc" (Some "pll") 0 in
  call_clk_register NULL 16 init 32 ∈ calls_since Board.boot r.2
  ∧ r.1 = 32
  ∧ call_kzalloc NULL 16 ∈ calls_since Board.boot r.2
  ∧ init_num_parents init = 1.
Proof.
  intros r init.
  assert (Hin : call_clk_register NULL 16 init 32 ∈ calls_since Board.boot r.2).
  { apply list_elem_of_further, list_elem_of_further, list_elem_of_here. }
  destruct (registration_describes_gate NULL "osc" (Some "pll") 0 42 false
              Board.boot NULL 16 init 32 Hin)
    as (_ & _ & Hret & Hk & _ & _ & _ & Hnum & _).
  split; [exact Hin|]. split; [symmetry; exact Hret|].
  split; [exact Hk|exact Hnum].
Defined.
